(** * EcoVision AI model harness: validation and benchmarking utilities

    A shallow embedding of [model_tester.py] (class [ModelTester]) and of the
    synthetic-input and audio-preprocessing helpers of [model_validation.py],
    followed by the properties of the harness that are established on it.

    Numerical conventions.  numpy works on IEEE binary floating point; here
    tensor elements and clock readings are exact rationals ([Q]), so rounding
    error is abstracted away.  The scalars that numpy derives by a division
    carry one extra value, [NonFinite], standing for [nan] and the infinities
    that numpy returns (with a warning, never an exception) on an empty
    reduction or a zero divisor.  Square roots are taken by a function the
    host supplies.

    What the exact model establishes is therefore what the code computes up
    to rounding.  Orders between reported values that rounding can break
    (a mean against an extreme, a variance against zero on equal inputs) are
    not stated on it; [Binary64] evaluates the benchmark statistics on the
    machine's binary64 numbers and exhibits such a break. *)

From Stdlib Require Import String List ZArith QArith Qabs Qround Qminmax.
From Stdlib Require Import Bool Arith Lia Lqa Sorted DecimalString.
From Corelib Require PrimFloat.
Import ListNotations.

Set Warnings "-register-all".
Local Open Scope string_scope.
Local Open Scope list_scope.
Local Open Scope Q_scope.

(** ** Python values and exceptions *)

Inductive npfloat : Type :=
| Finite (q : Q)
| NonFinite.

Inductive pyval : Type :=
| PNone
| PBool (b : bool)
| PInt (z : Z)
| PFloat (x : npfloat)
| PStr (s : string)
| PList (l : list pyval)
| PDict (d : list (string * pyval)).

(** A [dict] keeps its keys in insertion order; assigning to a key that is
    already present replaces the value in place. *)
Definition pydict := list (string * pyval).

Fixpoint dict_get {A : Type} (d : list (string * A)) (k : string) : option A :=
  match d with
  | [] => None
  | (k', v) :: d' => if String.eqb k k' then Some v else dict_get d' k
  end.

Fixpoint dict_set {A : Type} (d : list (string * A)) (k : string) (v : A)
  : list (string * A) :=
  match d with
  | [] => [(k, v)]
  | (k', v') :: d' =>
      if String.eqb k k' then (k', v) :: d' else (k', v') :: dict_set d' k v
  end.

Definition dict_keys {A : Type} (d : list (string * A)) : list string :=
  map fst d.

Inductive exn_class : Type :=
| ImportError
| ModuleNotFoundError
| ValueError
| IndexError
| RuntimeError
| OSError.

Record exn : Type := mk_exn { exn_kind : exn_class; exn_msg : string }.

(** [except ImportError] also catches its subclass [ModuleNotFoundError]. *)
Definition is_ImportError (e : exn) : bool :=
  match exn_kind e with
  | ImportError | ModuleNotFoundError => true
  | _ => false
  end.

Inductive result (A : Type) : Type :=
| Ok (a : A)
| Raise (e : exn).
Arguments Ok {A} a.
Arguments Raise {A} e.

(** ** Scalars *)

Definition nf_map (f : Q -> Q) (x : npfloat) : npfloat :=
  match x with
  | Finite q => Finite (f q)
  | NonFinite => NonFinite
  end.

(** numpy true division of finite scalars: a zero divisor gives [inf] or
    [nan]. *)
Definition np_divide (a b : Q) : npfloat :=
  if Qeq_bool b 0 then NonFinite else Finite (a / b).

Definition nf_divide (a b : npfloat) : npfloat :=
  match a, b with
  | Finite x, Finite y => np_divide x y
  | _, _ => NonFinite
  end.

(** [x != 0]: [nan] and the infinities differ from zero. *)
Definition nf_nonzero (x : npfloat) : bool :=
  match x with
  | Finite q => negb (Qeq_bool q 0)
  | NonFinite => true
  end.

Definition Qnat (n : nat) : Q := inject_Z (Z.of_nat n).

(** ** Reductions over a flat sequence of elements *)

Definition sum_q (l : list Q) : Q := fold_right Qplus 0 l.

(** Arithmetic mean; meaningful on a non-empty sequence. *)
Definition mean_q (l : list Q) : Q := sum_q l / Qnat (length l).

(** Population variance [mean(|x - mean(x)|^2)] (ddof = 0). *)
Definition var_q (l : list Q) : Q :=
  let m := mean_q l in
  mean_q (map (fun x => (x - m) * (x - m)) l).

Definition min_q (x : Q) (l : list Q) : Q := fold_right Qmin x l.
Definition max_q (x : Q) (l : list Q) : Q := fold_right Qmax x l.

Definition np_mean (l : list Q) : npfloat :=
  match l with
  | [] => NonFinite
  | _ => Finite (mean_q l)
  end.

Definition np_var (l : list Q) : npfloat :=
  match l with
  | [] => NonFinite
  | _ => Finite (var_q l)
  end.

Definition zero_size (reduction : string) : exn :=
  mk_exn ValueError
    ("zero-size array to reduction operation " ++ reduction
     ++ " which has no identity")%string.

Definition np_min (l : list Q) : result Q :=
  match l with
  | [] => Raise (zero_size "minimum")
  | x :: l' => Ok (min_q x l')
  end.

Definition np_max (l : list Q) : result Q :=
  match l with
  | [] => Raise (zero_size "maximum")
  | x :: l' => Ok (max_q x l')
  end.

(** Index of the first occurrence of the maximum. *)
Fixpoint argmax_from (best : Q) (besti i : nat) (l : list Q) : nat :=
  match l with
  | [] => besti
  | y :: l' =>
      if Qle_bool y best then argmax_from best besti (S i) l'
      else argmax_from y i (S i) l'
  end.

Definition np_argmax (l : list Q) : result nat :=
  match l with
  | [] => Raise (mk_exn ValueError "attempt to get argmax of an empty sequence")
  | x :: l' => Ok (argmax_from x 0%nat 1%nat l')
  end.

(** ** Order statistics *)

Fixpoint insert_sorted (x : Q) (l : list Q) : list Q :=
  match l with
  | [] => [x]
  | y :: l' => if Qle_bool x y then x :: l else y :: insert_sorted x l'
  end.

Definition np_sort (l : list Q) : list Q := fold_right insert_sorted [] l.

(** Linear interpolation between the two order statistics around the
    virtual index [v]; the upper neighbour is clipped to the last element. *)
Definition interpolate (s : list Q) (v : Q) : Q :=
  let i := Z.to_nat (Qfloor v) in
  let g := v - inject_Z (Qfloor v) in
  let lo := nth i s 0 in
  let hi := nth (Nat.min (S i) (length s - 1)) s 0 in
  lo + (hi - lo) * g.

(** [np.percentile(l, p)] with the default (linear) method, [0 <= p <= 100]. *)
Definition percentile_q (l : list Q) (p : Q) : Q :=
  interpolate (np_sort l) (Qnat (length l - 1) * p / 100).

Definition np_percentile (l : list Q) (p : Q) : npfloat :=
  match l with
  | [] => NonFinite
  | _ => Finite (percentile_q l p)
  end.

(** [np.median]: the middle order statistic, or the mean of the two middle
    ones. *)
Definition median_q (l : list Q) : Q :=
  let s := np_sort l in
  let n := length l in
  if Nat.even n
  then (nth (n / 2 - 1) s 0 + nth (n / 2) s 0) / 2
  else nth (n / 2) s 0.

Definition np_median (l : list Q) : npfloat :=
  match l with
  | [] => NonFinite
  | _ => Finite (median_q l)
  end.

(** ** Arrays

    An [ndarray] is a shape, an element type and an indexing function, the
    way numpy pairs a buffer with a shape: transposition, slicing and
    broadcasting only re-index. *)

Inductive Dtype : Type :=
| Float32
| Float64
| UInt8.

Definition Dtype_eqb (a b : Dtype) : bool :=
  match a, b with
  | Float32, Float32 | Float64, Float64 | UInt8, UInt8 => true
  | _, _ => false
  end.

Record ndarray : Type := mk_ndarray {
  shape : list nat;
  dtype : Dtype;
  item : list nat -> Q
}.

(** Row-major enumeration of the indices of a shape ([np.ndindex]). *)
Fixpoint ndindex (s : list nat) : list (list nat) :=
  match s with
  | [] => [[]]
  | d :: s' => flat_map (fun i => map (cons i) (ndindex s')) (seq 0 d)
  end.

Definition ravel (a : ndarray) : list Q := map (item a) (ndindex (shape a)).

(** Conversion of one element to an element type: floats keep the value,
    8-bit unsigned integers truncate toward zero and wrap modulo 256. *)
Definition cast (dt : Dtype) (q : Q) : Q :=
  match dt with
  | Float32 | Float64 => q
  | UInt8 => inject_Z (Z.quot (Qnum q) (Z.pos (Qden q)) mod 256)
  end.

Definition astype (a : ndarray) (dt : Dtype) : ndarray :=
  mk_ndarray (shape a) dt (fun i => cast dt (item a i)).

Definition np_full (s : list nat) (v : Q) (dt : Dtype) : ndarray :=
  mk_ndarray s dt (fun _ => cast dt v).

Definition np_zeros (s : list nat) (dt : Dtype) : ndarray :=
  mk_ndarray s dt (fun _ => 0).

Definition np_ones (s : list nat) (dt : Dtype) : ndarray :=
  mk_ndarray s dt (fun _ => 1).

Definition clipq (lo hi x : Q) : Q := Qmin (Qmax x lo) hi.

Definition np_clip (a : ndarray) (lo hi : Q) : ndarray :=
  mk_ndarray (shape a) (dtype a) (fun i => clipq lo hi (item a i)).

(** [a[0]] on an array of rank at least one; an empty first axis is an
    [IndexError]. *)
Definition first_row (a : ndarray) : result ndarray :=
  match shape a with
  | [] => Raise (mk_exn IndexError "too many indices for array")
  | O :: _ => Raise (mk_exn IndexError "index 0 is out of bounds for axis 0 with size 0")
  | S _ :: s' => Ok (mk_ndarray s' (dtype a) (fun i => item a (0%nat :: i)))
  end.

(** [a.T] reverses the axes. *)
Definition transpose (a : ndarray) : ndarray :=
  mk_ndarray (rev (shape a)) (dtype a) (fun i => item a (rev i)).

(** [np.expand_dims(a, axis=0)]. *)
Definition expand_dims0 (a : ndarray) : ndarray :=
  mk_ndarray (1%nat :: shape a) (dtype a) (fun i => item a (tl i)).

(** [a[:, :k]] on a matrix, for a non-negative bound [k]. *)
Definition take_columns (a : ndarray) (k : nat) : ndarray :=
  match shape a with
  | [r; c] => mk_ndarray [r; Nat.min k c] (dtype a) (item a)
  | _ => a
  end.

(** [np.pad(a, ((0, 0), (0, w)), mode='constant')] on a matrix. *)
Definition pad_columns (a : ndarray) (w : nat) : ndarray :=
  match shape a with
  | [r; c] =>
      mk_ndarray [r; (c + w)%nat] (dtype a)
        (fun i => match i with
                  | [_; j] => if (j <? c)%nat then item a i else 0
                  | _ => 0
                  end)
  | _ => a
  end.

(** [np.mean(a, axis=1)] on a matrix. *)
Definition mean_axis1 (a : ndarray) : ndarray :=
  match shape a with
  | [r; c] =>
      mk_ndarray [r] Float64
        (fun i => match i with
                  | [k] => mean_q (map (fun j => item a [k; j]) (seq 0 c))
                  | _ => 0
                  end)
  | _ => a
  end.

Definition shape_eqb (s t : list nat) : bool :=
  if list_eq_dec Nat.eq_dec s t then true else false.

(** The arrays [o0 :: rest], all of the shape of [o0], along a new first
    axis. *)
Definition stacked (o0 : ndarray) (rest : list ndarray) : ndarray :=
  mk_ndarray (S (length rest) :: shape o0) (dtype o0)
    (fun i => match i with
              | k :: i' => item (nth k (o0 :: rest) o0) i'
              | [] => 0
              end).

(** [np.array(outs)] on a non-empty list of arrays: the arrays are stacked,
    and must agree on their shape. *)
Definition stack (o0 : ndarray) (rest : list ndarray) : result ndarray :=
  if forallb (fun o => shape_eqb (shape o) (shape o0)) rest
  then Ok (stacked o0 rest)
  else Raise (mk_exn ValueError "setting an array element with a sequence (inhomogeneous shape)").

(** [a[1:]] drops the first entry of the first axis. *)
Definition drop_first (a : ndarray) : ndarray :=
  match shape a with
  | d :: s' =>
      mk_ndarray ((d - 1)%nat :: s') (dtype a)
        (fun i => match i with
                  | k :: i' => item a (S k :: i')
                  | [] => 0
                  end)
  | [] => a
  end.

(** [np.var(a, axis=0)]: the variance across the first axis, per element. *)
Definition var_axis0 (a : ndarray) : ndarray :=
  match shape a with
  | d :: s' =>
      mk_ndarray s' Float64
        (fun i => var_q (map (fun k => item a (k :: i)) (seq 0 d)))
  | [] => a
  end.

(** [np.isclose(x, y, rtol, atol)] on finite values:
    [|x - y| <= atol + rtol * |y|], or [x == y]. *)
Definition isclose (rtol atol x y : Q) : bool :=
  Qle_bool (Qabs (x - y)) (atol + rtol * Qabs y) || Qeq_bool x y.

(** [np.allclose(a, b, rtol, atol)] where [b] has one more leading axis than
    [a]: [a] is broadcast along that axis. *)
Definition allclose (a b : ndarray) (rtol atol : Q) : bool :=
  forallb (fun i => isclose rtol atol (item a (tl i)) (item b i))
          (ndindex (shape b)).

(** ** The host: model runtime, clock, random generator, process, files

    Everything the harness reaches outside of numpy's arithmetic is an
    operation on an explicit [World].  An operation that can raise returns a
    [result]; the world it leaves behind is kept in both cases. *)

Class Host (World : Type) : Type := {
  (** TFLite interpreter *)
  set_tensor : nat -> ndarray -> World -> result unit * World;
  invoke : World -> result unit * World;
  get_tensor : nat -> World -> result ndarray * World;
  (** [time] *)
  perf_counter : World -> Q * World;
  strftime : string -> World -> string * World;
  (** [np.random]: one call draws a sample for every index *)
  random_seed : Z -> World -> World;
  random_sample : World -> (list nat -> Q) * World;
  standard_normal : World -> (list nat -> Q) * World;
  random_integers : Z -> Z -> World -> (list nat -> Z) * World;
  (** [psutil] *)
  import_psutil : World -> result unit * World;
  memory_rss : World -> Z * World;
  (** files and console *)
  stat_size : string -> World -> result Z * World;
  json_dump : string -> pyval -> World -> result unit * World;
  print : string -> World -> World;
  (** [librosa] *)
  librosa_load : string -> Z -> World -> result (list Q * Z) * World;
  librosa_mfcc : list Q -> Z -> nat -> ndarray;
  librosa_melspectrogram : list Q -> Z -> nat -> ndarray;
  (** [np.sqrt] *)
  np_sqrt : Q -> Q
}.

(** The monad of harness code: state passing with exceptions. *)
Definition M (World A : Type) : Type := World -> result A * World.

Definition ret {World A : Type} (a : A) : M World A := fun w => (Ok a, w).

Definition raise {World A : Type} (e : exn) : M World A := fun w => (Raise e, w).

Definition bind {World A B : Type} (c : M World A) (k : A -> M World B)
  : M World B :=
  fun w => match c w with
           | (Ok a, w') => k a w'
           | (Raise e, w') => (Raise e, w')
           end.

Definition lift {World A : Type} (f : World -> A * World) : M World A :=
  fun w => let (a, w') := f w in (Ok a, w').

Definition effect {World : Type} (f : World -> World) : M World unit :=
  fun w => (Ok tt, f w).

Definition of_result {World A : Type} (r : result A) : M World A :=
  fun w => (r, w).

(** [try: c  except <filter> as e: h e]; an exception the filter rejects
    propagates. *)
Definition try_except {World A : Type} (c : M World A) (catches : exn -> bool)
  (h : exn -> M World A) : M World A :=
  fun w => match c w with
           | (Ok a, w') => (Ok a, w')
           | (Raise e, w') => if catches e then h e w' else (Raise e, w')
           end.

Definition rbind {A B : Type} (r : result A) (k : A -> result B) : result B :=
  match r with
  | Ok a => k a
  | Raise e => Raise e
  end.

Declare Scope harness_scope.
Delimit Scope harness_scope with harness.
Notation "x <- c ;; k" := (bind c (fun x => k))
  (at level 61, c at next level, right associativity) : harness_scope.
Notation "c ;;; k" := (bind c (fun _ => k))
  (at level 61, right associativity) : harness_scope.
Notation "x <~ r ;; k" := (rbind r (fun x => k))
  (at level 61, r at next level, right associativity) : harness_scope.
Local Open Scope harness_scope.

(** [for _ in range(n): body] *)
Fixpoint repeat_m {World : Type} (n : nat) (body : M World unit) : M World unit :=
  match n with
  | O => ret tt
  | S n' => body ;;; repeat_m n' body
  end.

(** [acc = []; for _ in range(n): acc.append(body())] *)
Fixpoint collect_m {World A : Type} (n : nat) (body : M World A)
  : M World (list A) :=
  match n with
  | O => ret []
  | S n' => a <- body ;; l <- collect_m n' body ;; ret (a :: l)
  end.

(** ** Printing of shapes *)

Definition repr_nat (n : nat) : string := NilEmpty.string_of_uint (Nat.to_uint n).

Fixpoint join_repr (l : list nat) : string :=
  match l with
  | [] => ""
  | [n] => repr_nat n
  | n :: l' => (repr_nat n ++ ", " ++ join_repr l')%string
  end.

(** [str] of a list of integers, as an f-string renders it. *)
Definition repr_shape (s : list nat) : string :=
  ("[" ++ join_repr s ++ "]")%string.

Definition repr_dtype (dt : Dtype) : string :=
  match dt with
  | Float32 => "<class 'numpy.float32'>"
  | Float64 => "<class 'numpy.float64'>"
  | UInt8 => "<class 'numpy.uint8'>"
  end.

Definition PShape (s : list nat) : pyval :=
  PList (map (fun d => PInt (Z.of_nat d)) s).

(** ** [model_tester.py]: class [ModelTester] *)

Record TensorDetail : Type := mk_detail {
  td_name : string;
  td_index : nat;
  td_shape : list nat;
  td_dtype : Dtype
}.

(** The state [__init__] leaves in [self].  The constructor reads
    [input_details[0]] and [output_details[0]], so a tester that exists has
    both; the record keeps them with the lengths of the two lists. *)
Record ModelTester : Type := mk_tester {
  model_path : string;
  input_details_0 : TensorDetail;
  output_details_0 : TensorDetail;
  num_inputs : nat;
  num_outputs : nat
}.

Section Harness.

Context {World : Type} {host : Host World}.

(** [np.random.rand] and [np.random.randn], called with the dimensions of
    a shape [s] of at least one dimension, where they return an array.  Called with no
    dimension they return a Python float, on which the [.astype] that
    follows [rand] in the source raises [AttributeError]; that case is
    outside these definitions, and the statements that rest on it assume a
    shape of at least one dimension where they claim that nothing raises. *)
Definition np_random_rand (s : list nat) : M World ndarray :=
  f <- lift random_sample ;; ret (mk_ndarray s Float64 f).

Definition np_random_randn (s : list nat) : M World ndarray :=
  f <- lift standard_normal ;; ret (mk_ndarray s Float64 f).

Definition np_random_randint (lo hi : Z) (s : list nat) (dt : Dtype) : M World ndarray :=
  f <- lift (random_integers lo hi) ;;
  ret (mk_ndarray s dt (fun i => inject_Z (f i))).

Definition np_std (l : list Q) : npfloat := nf_map np_sqrt (np_var l).

Definition get_model_info (self : ModelTester) : M World pyval :=
  size <- stat_size (model_path self) ;;
  ret (PDict
    [ ("model_path", PStr (model_path self));
      ("input_shape", PShape (td_shape (input_details_0 self)));
      ("input_dtype", PStr (repr_dtype (td_dtype (input_details_0 self))));
      ("output_shape", PShape (td_shape (output_details_0 self)));
      ("output_dtype", PStr (repr_dtype (td_dtype (output_details_0 self))));
      ("model_size_mb", PFloat (Finite (inject_Z size / (1024 * 1024))));
      ("num_inputs", PInt (Z.of_nat (num_inputs self)));
      ("num_outputs", PInt (Z.of_nat (num_outputs self))) ]).

(** The test input of the speed, memory and stability checks (the source
    repeats these four lines in each of them). *)
Definition sample_input (self : ModelTester) : M World ndarray :=
  let input_shape := td_shape (input_details_0 self) in
  let input_dtype := td_dtype (input_details_0 self) in
  if Dtype_eqb input_dtype Float32
  then r <- np_random_rand input_shape ;; ret (astype r Float32)
  else np_random_randint 0 255 input_shape UInt8.

(** One [set_tensor] followed by [invoke]. *)
Definition run_once (self : ModelTester) (test_input : ndarray) : M World unit :=
  set_tensor (td_index (input_details_0 self)) test_input ;;;
  invoke.

Definition timed_run (self : ModelTester) (test_input : ndarray) : M World Q :=
  start_time <- lift perf_counter ;;
  run_once self test_input ;;;
  end_time <- lift perf_counter ;;
  ret (end_time - start_time).

Definition ms (x : npfloat) : npfloat := nf_map (fun q => q * 1000) x.

(** The dictionary that [test_inference_speed] builds from the collected
    timings; its entries are evaluated in the order written. *)
Definition latency_stats (num_iterations : nat) (times : list Q) : result pyval :=
  let mean_time := np_mean times in
  let std_time := np_std times in
  min_time <~ np_min times ;;
  max_time <~ np_max times ;;
  Ok (PDict
    [ ("num_iterations", PInt (Z.of_nat num_iterations));
      ("mean_time_ms", PFloat (ms mean_time));
      ("std_time_ms", PFloat (ms std_time));
      ("min_time_ms", PFloat (ms (Finite min_time)));
      ("max_time_ms", PFloat (ms (Finite max_time)));
      ("median_time_ms", PFloat (ms (np_median times)));
      ("fps", PFloat (nf_divide (Finite 1) (np_mean times)));
      ("percentile_95_ms", PFloat (ms (np_percentile times 95)));
      ("percentile_99_ms", PFloat (ms (np_percentile times 99))) ]).

Definition test_inference_speed (self : ModelTester)
  (num_iterations warmup_iterations : nat) : M World pyval :=
  test_input <- sample_input self ;;
  repeat_m warmup_iterations (run_once self test_input) ;;;
  times <- collect_m num_iterations (timed_run self test_input) ;;
  of_result (latency_stats num_iterations times).

(** The patterns of [test_input_variations], in dictionary order. *)
Definition test_patterns (self : ModelTester) : M World (list (string * ndarray)) :=
  let input_shape := td_shape (input_details_0 self) in
  let input_dtype := td_dtype (input_details_0 self) in
  u <- np_random_rand input_shape ;;
  n <- np_random_randn input_shape ;;
  let patterns :=
    [ ("zeros", np_zeros input_shape input_dtype);
      ("ones", np_ones input_shape input_dtype);
      ("random_uniform", astype u input_dtype);
      ("random_normal", astype (np_clip n 0 1) input_dtype) ] in
  if Dtype_eqb input_dtype UInt8
  then
    let patterns := dict_set patterns "max_values" (np_full input_shape 255 input_dtype) in
    r <- np_random_randint 0 256 input_shape input_dtype ;;
    ret (dict_set patterns "random_uniform" r)
  else
    ret (dict_set patterns "max_values" (np_ones input_shape input_dtype)).

(** The names under which [test_patterns] files its tensors. *)
Definition pattern_names : list string :=
  ["zeros"; "ones"; "random_uniform"; "random_normal"; "max_values"].

(** The success entry computed from one output tensor. *)
Definition variation_entry (output : ndarray) : result pyval :=
  let output_mean := np_mean (ravel output) in
  let output_std := np_std (ravel output) in
  output_min <~ np_min (ravel output) ;;
  output_max <~ np_max (ravel output) ;;
  top_class <~ (if (1 <? length (shape output))%nat
                then row <~ first_row output ;;
                     k <~ np_argmax (ravel row) ;;
                     Ok (PInt (Z.of_nat k))
                else Ok PNone) ;;
  top_confidence <~ (if (1 <? length (shape output))%nat
                     then row <~ first_row output ;;
                          c <~ np_max (ravel row) ;;
                          Ok (PFloat (Finite c))
                     else Ok PNone) ;;
  Ok (PDict
    [ ("success", PBool true);
      ("output_shape", PShape (shape output));
      ("output_mean", PFloat output_mean);
      ("output_std", PFloat output_std);
      ("output_min", PFloat (Finite output_min));
      ("output_max", PFloat (Finite output_max));
      ("top_class", top_class);
      ("top_confidence", top_confidence) ]).

Definition failure_entry (e : exn) : pyval :=
  PDict [ ("success", PBool false); ("error", PStr (exn_msg e)) ].

(** The statements under [try:] for one pattern. *)
Definition infer_pattern (self : ModelTester) (test_input : ndarray) : M World pyval :=
  run_once self test_input ;;;
  output <- get_tensor (td_index (output_details_0 self)) ;;
  of_result (variation_entry output).

(** The body of the loop: [try: ... except Exception as e: ...]. *)
Definition probe_pattern (self : ModelTester) (test_input : ndarray) : M World pyval :=
  try_except (infer_pattern self test_input) (fun _ => true)
    (fun e => ret (failure_entry e)).

Fixpoint probe_patterns (self : ModelTester) (patterns : list (string * ndarray))
  (results : pydict) : M World pydict :=
  match patterns with
  | [] => ret results
  | (pattern_name, test_input) :: rest =>
      entry <- probe_pattern self test_input ;;
      probe_patterns self rest (dict_set results pattern_name entry)
  end.

Definition test_input_variations (self : ModelTester) : M World pyval :=
  patterns <- test_patterns self ;;
  results <- probe_patterns self patterns [] ;;
  ret (PDict results).

(** [for i in range(n)] of [test_memory_usage]: one inference per
    iteration, one memory sample on every tenth. *)
Fixpoint memory_loop (self : ModelTester) (test_input : ndarray)
  (iterations : list nat) (memory_usage : list Q) : M World (list Q) :=
  match iterations with
  | [] => ret memory_usage
  | i :: rest =>
      run_once self test_input ;;;
      if (i mod 10 =? 0)%nat
      then rss <- lift memory_rss ;;
           memory_loop self test_input rest
             (memory_usage ++ [inject_Z rss / 1024 / 1024])
      else memory_loop self test_input rest memory_usage
  end.

(** The builtin [max] of a list. *)
Definition py_max (l : list Q) : result Q :=
  match l with
  | [] => Raise (mk_exn ValueError "max() arg is an empty sequence")
  | x :: l' => Ok (max_q x l')
  end.

Definition test_memory_usage (self : ModelTester) : M World pyval :=
  import_psutil ;;;
  rss <- lift memory_rss ;;
  let baseline_memory := inject_Z rss / 1024 / 1024 in
  test_input <- sample_input self ;;
  memory_usage <- memory_loop self test_input (seq 0 50) [] ;;
  peak <- of_result (py_max memory_usage) ;;
  ret (PDict
    [ ("baseline_memory_mb", PFloat (Finite baseline_memory));
      ("peak_memory_mb", PFloat (Finite peak));
      ("memory_increase_mb", PFloat (Finite (peak - baseline_memory)));
      ("memory_samples", PList (map (fun m => PFloat (Finite m)) memory_usage)) ]).

Definition rtol : Q := 1 # 10000000.
Definition atol : Q := 1 # 10000000.

(** The analysis of [test_numerical_stability] once the outputs are
    collected.  With no output at all numpy only derives [nan] statistics
    (with warnings) until [outputs[0]] raises [IndexError]. *)
Definition stability_report (num_tests : nat) (outs : list ndarray) : result pyval :=
  match outs with
  | [] => Raise (mk_exn IndexError "index 0 is out of bounds for axis 0 with size 0")
  | o0 :: rest =>
      outputs <~ stack o0 rest ;;
      let output_variance := var_axis0 outputs in
      max_variance <~ np_max (ravel output_variance) ;;
      let mean_variance := np_mean (ravel output_variance) in
      first <~ first_row outputs ;;
      let is_deterministic := allclose first (drop_first outputs) rtol atol in
      Ok (PDict
        [ ("num_tests", PInt (Z.of_nat num_tests));
          ("is_deterministic", PBool is_deterministic);
          ("max_variance", PFloat (Finite max_variance));
          ("mean_variance", PFloat mean_variance);
          ("output_std", PFloat (np_std (ravel outputs)));
          ("coefficient_of_variation",
             if nf_nonzero (np_mean (ravel outputs))
             then PFloat (nf_divide (np_std (ravel outputs)) (np_mean (ravel outputs)))
             else PInt 0) ])
  end.

(** One inference of the stability loop; the output is copied. *)
Definition run_output (self : ModelTester) (test_input : ndarray) : M World ndarray :=
  run_once self test_input ;;;
  get_tensor (td_index (output_details_0 self)).

Definition test_numerical_stability (self : ModelTester) (num_tests : nat)
  : M World pyval :=
  effect (random_seed 42) ;;;
  test_input <- sample_input self ;;
  outs <- collect_m num_tests (run_output self test_input) ;;
  of_result (stability_report num_tests outs).

Definition memory_unavailable : pyval :=
  PDict [ ("error", PStr "psutil not available") ].

(** The report document, given its parts. *)
Definition report_document (model_info : pyval) (timestamp : string)
  (speed variations memory stability : pyval) : pyval :=
  PDict [ ("model_info", model_info);
          ("timestamp", PStr timestamp);
          ("tests", PDict [ ("speed", speed);
                            ("input_variations", variations);
                            ("memory", memory);
                            ("stability", stability) ]) ].

(** The block under [if output_path:]; [None] and the empty string are
    both false. *)
Definition save_report (output_path : option string) (report : pyval)
  : M World unit :=
  match output_path with
  | Some path =>
      if String.eqb path ""
      then ret tt
      else json_dump path report ;;;
           effect (print ("Report saved to " ++ path)%string)
  | None => ret tt
  end.

Definition generate_test_report (self : ModelTester) (output_path : option string)
  : M World pyval :=
  effect (print "Generating comprehensive test report...") ;;;
  model_info <- get_model_info self ;;
  timestamp <- lift (strftime "%Y-%m-%d %H:%M:%S") ;;
  effect (print "Running speed test...") ;;;
  speed <- test_inference_speed self 100 10 ;;
  let tests := dict_set [] "speed" speed in
  effect (print "Testing input variations...") ;;;
  variations <- test_input_variations self ;;
  let tests := dict_set tests "input_variations" variations in
  effect (print "Testing memory usage...") ;;;
  memory <- try_except (test_memory_usage self) is_ImportError
              (fun _ => ret memory_unavailable) ;;
  let tests := dict_set tests "memory" memory in
  effect (print "Testing numerical stability...") ;;;
  stability <- test_numerical_stability self 10 ;;
  let tests := dict_set tests "stability" stability in
  let report :=
    PDict [ ("model_info", model_info);
            ("timestamp", PStr timestamp);
            ("tests", PDict tests) ] in
  save_report output_path report ;;;
  ret report.

(** ** [model_validation.py]: synthetic inputs and audio preprocessing *)

Definition create_sample_image_data (shape : list nat) (normalize : bool)
  : M World (option ndarray) :=
  if (length shape =? 4)%nat
  then
    if normalize
    then r <- np_random_rand shape ;; ret (Some (astype r Float32))
    else r <- np_random_randint 0 255 shape UInt8 ;; ret (Some r)
  else
    effect (print ("Unexpected image shape: " ++ repr_shape shape)%string) ;;;
    ret None.

Definition create_sample_audio_data (shape : list nat) : M World (option ndarray) :=
  if (length shape =? 2)%nat
  then r <- np_random_randn shape ;; ret (Some (astype r Float32))
  else if (length shape =? 3)%nat
  then r <- np_random_randn shape ;; ret (Some (astype r Float32))
  else if (length shape =? 4)%nat
  then r <- np_random_randn shape ;; ret (Some (astype r Float32))
  else
    effect (print ("Unexpected audio shape: " ++ repr_shape shape)%string) ;;;
    ret None.

Definition preprocess_audio_for_model (audio_path : string)
  (target_shape : list nat) (sample_rate : Z) : M World ndarray :=
  loaded <- librosa_load audio_path sample_rate ;;
  let (audio, sr) := (loaded : list Q * Z) in
  if (length target_shape =? 2)%nat
  then
    let mfccs := librosa_mfcc audio sr (nth 1 target_shape 0%nat) in
    let features := expand_dims0 (mean_axis1 mfccs) in
    ret (astype features Float32)
  else if (length target_shape =? 3)%nat
  then
    let mel_spec := librosa_melspectrogram audio sr (nth 2 target_shape 0%nat) in
    let mel_spec :=
      if (nth 1 target_shape 0 <? nth 1 (shape mel_spec) 0)%nat
      then take_columns mel_spec (nth 1 target_shape 0%nat)
      else
        let pad_width := (nth 1 target_shape 0 - nth 1 (shape mel_spec) 0)%nat in
        pad_columns mel_spec pad_width in
    let features := expand_dims0 (transpose mel_spec) in
    ret (astype features Float32)
  else
    raise (mk_exn ValueError
             ("Unsupported audio target shape: " ++ repr_shape target_shape)%string).

End Harness.

(** ** [model_validation.py]: image preprocessing

    OpenCV is reached through two operations: [cv2.imread], which returns
    [None] for a file it cannot decode and never raises, and [cv2.resize],
    which is given the new width and height.  [cv2.cvtColor] with
    [COLOR_BGR2RGB] is modelled in full: it accepts three or four channels
    and returns the first three in reverse order. *)

Class Vision (World : Type) : Type := {
  cv2_imread : string -> World -> option ndarray * World;
  cv2_resize : ndarray -> nat -> nat -> result ndarray
}.

Definition cv2_error (msg : string) : exn := mk_exn RuntimeError msg.

Definition cvtColor_BGR2RGB (image : ndarray) : result ndarray :=
  match shape image with
  | [h; w; c] =>
      if ((c =? 3) || (c =? 4))%nat
      then Ok (mk_ndarray [h; w; 3%nat] (dtype image)
                 (fun i => match i with
                           | [y; x; k] => item image [y; x; (2 - k)%nat]
                           | _ => 0
                           end))
      else Raise (cv2_error "Invalid number of channels in input image")
  | _ => Raise (cv2_error "Invalid number of channels in input image")
  end.

(** [l[k]] on a Python list. *)
Definition getitem {A : Type} (l : list A) (k : nat) : result A :=
  match nth_error l k with
  | Some a => Ok a
  | None => Raise (mk_exn IndexError "list index out of range")
  end.

(** [a / c] for an array and a scalar. *)
Definition divide_scalar (a : ndarray) (c : Q) : ndarray :=
  mk_ndarray (shape a) (dtype a) (fun i => item a i / c).

Definition preprocess_image_for_model {World : Type} {vision : Vision World}
  (image_path : string) (target_shape : list nat) : M World ndarray :=
  loaded <- lift (cv2_imread image_path) ;;
  match loaded with
  | None => raise (mk_exn ValueError ("Could not load image: " ++ image_path)%string)
  | Some image =>
      image <- of_result (cvtColor_BGR2RGB image) ;;
      target_height <- of_result (getitem target_shape 1) ;;
      target_width <- of_result (getitem target_shape 2) ;;
      image <- of_result (cv2_resize image target_width target_height) ;;
      let image := divide_scalar (astype image Float32) 255 in
      ret (expand_dims0 image)
  end.

(** ** [model_validation.py]: structural validation

    Opening a model ([tf.lite.Interpreter], [allocate_tensors] and the two
    [get_*_details] calls) is one operation of the host: it raises, or
    returns the details of the input and of the output tensors. *)

Class Loader (World : Type) : Type := {
  load_interpreter :
    string -> World -> result (list TensorDetail * list TensorDetail) * World
}.

Fixpoint spaces (n : nat) : string :=
  match n with
  | O => ""
  | S n' => (" " ++ spaces n')%string
  end.

Definition pad_left (width : nat) (s : string) : string :=
  (spaces (width - String.length s) ++ s)%string.

Fixpoint join_with (sep : string) (l : list string) : string :=
  match l with
  | [] => ""
  | [s] => s
  | s :: l' => (s ++ sep ++ join_with sep l')%string
  end.

(** [str] of a one-dimensional integer array: the elements are right
    aligned to the widest one and separated by one space. *)
Definition str_int_array (l : list nat) : string :=
  let width := fold_right Nat.max 0%nat (map (fun n => String.length (repr_nat n)) l) in
  ("[" ++ join_with " " (map (fun n => pad_left width (repr_nat n)) l) ++ "]")%string.

Definition validate_tflite_model {World : Type} {host : Host World}
  {loader : Loader World} (model_path : string) : M World (option pyval) :=
  try_except
    (details <- load_interpreter model_path ;;
     let (input_details, output_details) :=
       (details : list TensorDetail * list TensorDetail) in
     effect (print ("Model: " ++ model_path)%string) ;;;
     in0 <- of_result (getitem input_details 0) ;;
     effect (print ("Input shape: " ++ str_int_array (td_shape in0))%string) ;;;
     effect (print ("Input type: " ++ repr_dtype (td_dtype in0))%string) ;;;
     out0 <- of_result (getitem output_details 0) ;;
     effect (print ("Output shape: " ++ str_int_array (td_shape out0))%string) ;;;
     effect (print ("Output type: " ++ repr_dtype (td_dtype out0))%string) ;;;
     size <- stat_size model_path ;;
     let model_info :=
       PDict
         [ ("input_shape", PShape (td_shape in0));
           ("input_dtype", PStr (repr_dtype (td_dtype in0)));
           ("output_shape", PShape (td_shape out0));
           ("output_dtype", PStr (repr_dtype (td_dtype out0)));
           ("model_size_mb", PFloat (Finite (inject_Z size / (1024 * 1024))));
           ("num_inputs", PInt (Z.of_nat (length input_details)));
           ("num_outputs", PInt (Z.of_nat (length output_details))) ] in
     (if (length input_details =? 1)%nat
      then ret tt
      else effect (print ("Warning: Model has " ++ repr_nat (length input_details)
                          ++ " inputs, expected 1")%string)) ;;;
     (if (length output_details =? 1)%nat
      then ret tt
      else effect (print ("Warning: Model has " ++ repr_nat (length output_details)
                          ++ " outputs, expected 1")%string)) ;;;
     ret (Some model_info))
    (fun _ => true)
    (fun e =>
       effect (print ("Error validating model " ++ model_path ++ ": "
                      ++ exn_msg e)%string) ;;;
       ret None).

(** [ModelTester.__init__]: the model is opened, and the first input and
    output details are read for the two lines printed after "Loaded
    model". *)
Definition ModelTester_init {World : Type} {host : Host World}
  {loader : Loader World} (path : string) : M World ModelTester :=
  details <- load_interpreter path ;;
  let (input_details, output_details) :=
    (details : list TensorDetail * list TensorDetail) in
  effect (print ("Loaded model: " ++ path)%string) ;;;
  in0 <- of_result (getitem input_details 0) ;;
  effect (print ("Input shape: " ++ str_int_array (td_shape in0))%string) ;;;
  out0 <- of_result (getitem output_details 0) ;;
  effect (print ("Output shape: " ++ str_int_array (td_shape out0))%string) ;;;
  ret (mk_tester path in0 out0 (length input_details) (length output_details)).

(** ** A concrete host

    A small deterministic host on which the harness can be run: the model
    rejects an input whose first element is one, answers every other input
    with the same row of three scores, the clock advances by one second per
    reading, and [psutil] is not installed. *)

Module Demo.

Record World : Type := mk_world {
  ticks : Z;
  loaded : Q;
  console : list string
}.

Definition scores : ndarray :=
  mk_ndarray [1%nat; 3%nat] Float32
    (fun i => match i with
              | [_; 1%nat] => 7 # 10
              | [_; _] => 1 # 10
              | _ => 0
              end).

Definition frames : ndarray :=
  mk_ndarray [2%nat; 5%nat] Float32
    (fun i => match i with
              | [r; c] => Qnat (10 * r + c + 1)
              | _ => 0
              end).

(** Square root rounded down to six decimals. *)
Definition sqrt6 (q : Q) : Q :=
  Z.sqrt (Qnum q * 1000000000000 / Z.pos (Qden q)) # 1000000.

#[export] Instance host : Host World := {
  set_tensor := fun _ x w =>
    (Ok tt, mk_world (ticks w) (item x (map (fun _ => 0%nat) (shape x))) (console w));
  invoke := fun w =>
    if Qeq_bool (loaded w) 1
    then (Raise (mk_exn RuntimeError "Failed to invoke the interpreter"), w)
    else (Ok tt, w);
  get_tensor := fun _ w => (Ok scores, w);
  perf_counter := fun w =>
    (inject_Z (ticks w), mk_world (ticks w + 1) (loaded w) (console w));
  strftime := fun _ w => ("2024-01-01 00:00:00", w);
  random_seed := fun _ w => w;
  random_sample := fun w => (fun _ => 1 # 2, w);
  standard_normal := fun w => (fun _ => 1 # 4, w);
  random_integers := fun _ _ w => (fun _ => 7%Z, w);
  import_psutil := fun w =>
    (Raise (mk_exn ModuleNotFoundError "No module named 'psutil'"), w);
  memory_rss := fun w => (104857600%Z, w);
  stat_size := fun _ w => (Ok 2097152%Z, w);
  json_dump := fun _ _ w => (Ok tt, w);
  print := fun s w => mk_world (ticks w) (loaded w) (console w ++ [s]);
  librosa_load := fun _ sr w => (Ok ([0; 1 # 2; 0], sr), w);
  librosa_mfcc := fun _ _ _ => frames;
  librosa_melspectrogram := fun _ _ _ => frames;
  np_sqrt := sqrt6
}.

(** The same host around a model whose output is a flat vector of three
    scores. *)
Definition flat_scores : ndarray :=
  mk_ndarray [3%nat] Float32
    (fun i => match i with
              | [1%nat] => 7 # 10
              | [_] => 1 # 10
              | _ => 0
              end).

Definition flat_host : Host World := {|
  set_tensor := set_tensor (Host := host);
  invoke := invoke (Host := host);
  get_tensor := fun _ w => (Ok flat_scores, w);
  perf_counter := perf_counter (Host := host);
  strftime := strftime (Host := host);
  random_seed := random_seed (Host := host);
  random_sample := random_sample (Host := host);
  standard_normal := standard_normal (Host := host);
  random_integers := random_integers (Host := host);
  import_psutil := import_psutil (Host := host);
  memory_rss := memory_rss (Host := host);
  stat_size := stat_size (Host := host);
  json_dump := json_dump (Host := host);
  print := print (Host := host);
  librosa_load := librosa_load (Host := host);
  librosa_mfcc := librosa_mfcc (Host := host);
  librosa_melspectrogram := librosa_melspectrogram (Host := host);
  np_sqrt := np_sqrt (Host := host)
|}.

Definition start : World := mk_world 0 0 [].

Definition tester : ModelTester :=
  mk_tester "flora.tflite"
    (mk_detail "input" 0 [1%nat; 2%nat; 2%nat; 3%nat] Float32)
    (mk_detail "output" 1 [1%nat; 3%nat] Float32)
    1 1.

(** A host whose model never fails and where [psutil] is installed: each
    inference advances the clock, and the resident memory grows with it. *)
Definition steady_host : Host World := {|
  set_tensor := set_tensor (Host := host);
  invoke := fun w => (Ok tt, mk_world (ticks w + 1) (loaded w) (console w));
  get_tensor := get_tensor (Host := host);
  perf_counter := perf_counter (Host := host);
  strftime := strftime (Host := host);
  random_seed := random_seed (Host := host);
  random_sample := random_sample (Host := host);
  standard_normal := standard_normal (Host := host);
  random_integers := random_integers (Host := host);
  import_psutil := fun w => (Ok tt, w);
  memory_rss := fun w => ((104857600 + 1048576 * ticks w)%Z, w);
  stat_size := stat_size (Host := host);
  json_dump := json_dump (Host := host);
  print := print (Host := host);
  librosa_load := librosa_load (Host := host);
  librosa_mfcc := librosa_mfcc (Host := host);
  librosa_melspectrogram := librosa_melspectrogram (Host := host);
  np_sqrt := np_sqrt (Host := host)
|}.

(** The steady host with a model that wears out: once the clock has reached
    330 every inference fails. *)
Definition worn_host : Host World := {|
  set_tensor := set_tensor (Host := steady_host);
  invoke := fun w =>
    if (330 <=? ticks w)%Z
    then (Raise (mk_exn RuntimeError "Failed to invoke the interpreter"), w)
    else (Ok tt, mk_world (ticks w + 1) (loaded w) (console w));
  get_tensor := get_tensor (Host := steady_host);
  perf_counter := perf_counter (Host := steady_host);
  strftime := strftime (Host := steady_host);
  random_seed := random_seed (Host := steady_host);
  random_sample := random_sample (Host := steady_host);
  standard_normal := standard_normal (Host := steady_host);
  random_integers := random_integers (Host := steady_host);
  import_psutil := import_psutil (Host := steady_host);
  memory_rss := memory_rss (Host := steady_host);
  stat_size := stat_size (Host := steady_host);
  json_dump := json_dump (Host := steady_host);
  print := print (Host := steady_host);
  librosa_load := librosa_load (Host := steady_host);
  librosa_mfcc := librosa_mfcc (Host := steady_host);
  librosa_melspectrogram := librosa_melspectrogram (Host := steady_host);
  np_sqrt := np_sqrt (Host := steady_host)
|}.

(** The first host on a file system that refuses every write. *)
Definition readonly_host : Host World := {|
  set_tensor := set_tensor (Host := host);
  invoke := invoke (Host := host);
  get_tensor := get_tensor (Host := host);
  perf_counter := perf_counter (Host := host);
  strftime := strftime (Host := host);
  random_seed := random_seed (Host := host);
  random_sample := random_sample (Host := host);
  standard_normal := standard_normal (Host := host);
  random_integers := random_integers (Host := host);
  import_psutil := import_psutil (Host := host);
  memory_rss := memory_rss (Host := host);
  stat_size := stat_size (Host := host);
  json_dump := fun _ _ w => (Raise (mk_exn OSError "Permission denied"), w);
  print := print (Host := host);
  librosa_load := librosa_load (Host := host);
  librosa_mfcc := librosa_mfcc (Host := host);
  librosa_melspectrogram := librosa_melspectrogram (Host := host);
  np_sqrt := np_sqrt (Host := host)
|}.

(** The reading of the clock of a world. *)
Definition now (w : World) : Q := inject_Z (ticks w).

(** A loader that knows the model of [tester] and a second model with two
    inputs. *)
#[export] Instance loader : Loader World := {
  load_interpreter := fun path w =>
    if String.eqb path "flora.tflite"
    then (Ok ([mk_detail "input" 0 [1%nat; 2%nat; 2%nat; 3%nat] Float32],
              [mk_detail "output" 1 [1%nat; 3%nat] Float32]), w)
    else if String.eqb path "pair.tflite"
    then (Ok ([mk_detail "a" 0 [1%nat; 224%nat; 224%nat; 3%nat] UInt8;
               mk_detail "b" 1 [1%nat; 4%nat] UInt8],
              [mk_detail "output" 2 [1%nat; 10%nat] UInt8]), w)
    else (Raise (mk_exn ValueError ("Could not open '" ++ path ++ "'.")%string), w)
}.

(** A decoder that knows one file, a 1 x 2 picture in BGR order, and a
    resize that repeats the picture to fill the requested size. *)
Definition picture : ndarray :=
  mk_ndarray [1%nat; 2%nat; 3%nat] UInt8
    (fun i => match i with
              | [_; x; c] => Qnat (100 * x + 51 * c)
              | _ => 0
              end).

#[export] Instance vision : Vision World := {
  cv2_imread := fun path w =>
    (if String.eqb path "plant.jpg" then Some picture else None, w);
  cv2_resize := fun image width height =>
    match shape image with
    | [h; w; c] =>
        if ((width =? 0) || (height =? 0))%nat
        then Raise (cv2_error "inv_scale_x > 0")
        else Ok (mk_ndarray [height; width; c] (dtype image)
                   (fun i => match i with
                             | [y; x; k] => item image [(y mod h)%nat; (x mod w)%nat; k]
                             | _ => 0
                             end))
    | _ => Raise (cv2_error "unsupported image")
    end
}.

End Demo.

(** ** The benchmark statistics in binary64

    The arithmetic that [np.mean], [np.min] and [np.max] perform on a short
    float64 array, on the machine's binary64 numbers.  numpy adds fewer
    than eight values one after the other, starting from zero; a longer
    array is summed in blocks, which is not modelled: the mean of eight or
    more values is left undefined here. *)

Module Binary64.

Import PrimFloat.
Local Open Scope float_scope.

(** The element count as a float (exact for the counts used). *)
Fixpoint of_count (n : nat) : float :=
  match n with
  | O => 0
  | S n' => of_count n' + 1
  end.

Definition np_sum (l : list float) : float := fold_left add l 0.

Definition np_mean (l : list float) : option float :=
  if (length l <? 8)%nat then Some (np_sum l / of_count (length l)) else None.

Definition np_min (l : list float) : result float :=
  match l with
  | [] => Raise (zero_size "minimum")
  | x :: l' => Ok (fold_left (fun m y => if y <? m then y else m) l' x)
  end.

Definition np_max (l : list float) : result float :=
  match l with
  | [] => Raise (zero_size "maximum")
  | x :: l' => Ok (fold_left (fun m y => if m <? y then y else m) l' x)
  end.







End Binary64.

(** ** Notions used in the statements *)

(** The values of one output element across the runs. *)
Definition across_runs (outs : list ndarray) (idx : list nat) : list Q :=
  map (fun o => item o idx) outs.

(** A clock read by [perf_counter] is monotonic along the operations of
    one timed inference when some reading [now] of the world never
    decreases and brackets every value the clock returns. *)
Definition monotonic_clock {World : Type} {host : Host World}
  (now : World -> Q) : Prop :=
  (forall w, now w <= fst (perf_counter w) /\
             fst (perf_counter w) <= now (snd (perf_counter w))) /\
  (forall i x w, now w <= now (snd (set_tensor i x w))) /\
  (forall w, now w <= now (snd (invoke w))).

(** The two forms of an entry of the variation mapping: the eight fields
    of a success, or the flag and the message of a failure. *)
Definition well_formed_entry (entry : pyval) : Prop :=
  exists fields,
    entry = PDict fields /\
    ((dict_get fields "success" = Some (PBool true) /\
      dict_keys fields =
        ["success"; "output_shape"; "output_mean"; "output_std"; "output_min";
         "output_max"; "top_class"; "top_confidence"]) \/
     (exists msg, fields = [("success", PBool false); ("error", PStr msg)])).

(** * Properties *)

(** ** Dictionaries *)

Lemma dict_get_set_same {A : Type} (d : list (string * A)) (k : string) (v : A) :
  dict_get (dict_set d k v) k = Some v.
Proof.
  induction d as [|[k' v'] d IH]; simpl.
  - now rewrite String.eqb_refl.
  - destruct (String.eqb k k') eqn:E; simpl; rewrite E; auto.
Qed.

Lemma dict_get_set_other {A : Type} (d : list (string * A)) (k k' : string) (v : A) :
  k <> k' -> dict_get (dict_set d k v) k' = dict_get d k'.
Proof.
  intros Hne. induction d as [|[k0 v0] d IH]; simpl.
  - destruct (String.eqb k' k) eqn:E; auto.
    apply String.eqb_eq in E. congruence.
  - destruct (String.eqb k k0) eqn:E; simpl.
    + apply String.eqb_eq in E. subst k0.
      destruct (String.eqb k' k) eqn:E'; auto.
      apply String.eqb_eq in E'. congruence.
    + destruct (String.eqb k' k0); auto.
Qed.

Lemma dict_get_In {A : Type} (d : list (string * A)) (k : string) :
  In k (dict_keys d) <-> exists v, dict_get d k = Some v.
Proof.
  induction d as [|[k' v'] d IH]; simpl.
  - split; [tauto | intros [v H]; discriminate].
  - destruct (String.eqb k k') eqn:E.
    + apply String.eqb_eq in E. subst. split; eauto.
    + apply String.eqb_neq in E. rewrite <- IH. split; intros H; auto.
      destruct H; congruence.
Qed.

Lemma dict_keys_set {A : Type} (d : list (string * A)) (k : string) (v : A) :
  dict_keys (dict_set d k v) =
  if existsb (String.eqb k) (dict_keys d) then dict_keys d else dict_keys d ++ [k].
Proof.
  induction d as [|[k' v'] d IH]; simpl; auto.
  destruct (String.eqb k k') eqn:E; simpl; auto.
  rewrite IH. destruct (existsb (String.eqb k) (dict_keys d)); auto.
Qed.

(** ** Minimum, maximum and mean of a sequence *)

Lemma Qnat_S (n : nat) : Qnat (S n) == Qnat n + 1.
Proof.
  unfold Qnat. rewrite Nat2Z.inj_succ, <- Z.add_1_r, inject_Z_plus. reflexivity.
Qed.

Lemma Qnat_pos (n : nat) : (0 < n)%nat -> 0 < Qnat n.
Proof.
  intros H. unfold Qnat. change 0 with (inject_Z 0).
  rewrite <- Zlt_Qlt. lia.
Qed.

Lemma Qnat_nonneg (n : nat) : 0 <= Qnat n.
Proof.
  unfold Qnat. change 0 with (inject_Z 0). rewrite <- Zle_Qle. lia.
Qed.

Lemma Qnat_le (n m : nat) : (n <= m)%nat -> Qnat n <= Qnat m.
Proof.
  intros H. unfold Qnat. rewrite <- Zle_Qle. lia.
Qed.

Lemma min_q_le_head (x : Q) (l : list Q) : min_q x l <= x.
Proof.
  induction l as [|y l IH]; simpl.
  - apply Qle_refl.
  - eapply Qle_trans; [apply Q.le_min_r | exact IH].
Qed.

Lemma min_q_le_In (x y : Q) (l : list Q) : In y l -> min_q x l <= y.
Proof.
  induction l as [|z l IH]; simpl; [tauto|].
  intros [->|H].
  - apply Q.le_min_l.
  - eapply Qle_trans; [apply Q.le_min_r | auto].
Qed.

Lemma max_q_ge_head (x : Q) (l : list Q) : x <= max_q x l.
Proof.
  induction l as [|y l IH]; simpl.
  - apply Qle_refl.
  - eapply Qle_trans; [exact IH | apply Q.le_max_r].
Qed.

Lemma max_q_ge_In (x y : Q) (l : list Q) : In y l -> y <= max_q x l.
Proof.
  induction l as [|z l IH]; simpl; [tauto|].
  intros [->|H].
  - apply Q.le_max_l.
  - eapply Qle_trans; [auto | apply Q.le_max_r].
Qed.

Lemma sum_q_lower (a : Q) (l : list Q) :
  (forall y, In y l -> a <= y) -> Qnat (length l) * a <= sum_q l.
Proof.
  induction l as [|x l IH]; intros H.
  - change (0 * a <= 0). lra.
  - cbn [length sum_q fold_right]. rewrite Qnat_S.
    assert (a <= x) by (apply H; now left).
    assert (Qnat (length l) * a <= sum_q l) by (apply IH; intros; apply H; now right).
    unfold sum_q in *. lra.
Qed.

Lemma sum_q_upper (b : Q) (l : list Q) :
  (forall y, In y l -> y <= b) -> sum_q l <= Qnat (length l) * b.
Proof.
  induction l as [|x l IH]; intros H.
  - change (0 <= 0 * b). lra.
  - cbn [length sum_q fold_right]. rewrite Qnat_S.
    assert (x <= b) by (apply H; now left).
    assert (sum_q l <= Qnat (length l) * b) by (apply IH; intros; apply H; now right).
    unfold sum_q in *. lra.
Qed.

Lemma mean_q_lower (a : Q) (l : list Q) :
  l <> [] -> (forall y, In y l -> a <= y) -> a <= mean_q l.
Proof.
  intros Hne H. unfold mean_q.
  apply Qle_shift_div_l.
  - apply Qnat_pos. destruct l; [congruence | simpl; lia].
  - rewrite Qmult_comm. now apply sum_q_lower.
Qed.

Lemma mean_q_upper (b : Q) (l : list Q) :
  l <> [] -> (forall y, In y l -> y <= b) -> mean_q l <= b.
Proof.
  intros Hne H. unfold mean_q.
  apply Qle_shift_div_r.
  - apply Qnat_pos. destruct l; [congruence | simpl; lia].
  - rewrite Qmult_comm. now apply sum_q_upper.
Qed.


(** ** Sorting and interpolated order statistics *)

Lemma insert_sorted_length (x : Q) (l : list Q) :
  length (insert_sorted x l) = S (length l).
Proof.
  induction l as [|y l IH]; simpl; auto.
  destruct (Qle_bool x y); simpl; auto.
Qed.

Lemma np_sort_length (l : list Q) : length (np_sort l) = length l.
Proof.
  induction l as [|x l IH]; simpl; auto.
  now rewrite insert_sorted_length, IH.
Qed.

Lemma insert_sorted_In (x y : Q) (l : list Q) :
  In y (insert_sorted x l) -> y = x \/ In y l.
Proof.
  induction l as [|z l IH]; simpl.
  - intros [<-|[]]; auto.
  - destruct (Qle_bool x z); simpl; intros [<-|H]; auto.
    destruct (IH H); auto.
Qed.

Lemma insert_sorted_sorted (x : Q) (l : list Q) :
  StronglySorted Qle l -> StronglySorted Qle (insert_sorted x l).
Proof.
  induction 1 as [|y l Hs IH Hall]; simpl.
  - constructor; constructor.
  - destruct (Qle_bool x y) eqn:E.
    + apply Qle_bool_iff in E. constructor.
      * now constructor.
      * constructor; auto.
        rewrite Forall_forall in *. intros z Hz.
        eapply Qle_trans; eauto.
    + assert (y <= x).
      { destruct (Qlt_le_dec y x) as [Hlt|Hle]; [now apply Qlt_le_weak|].
        apply Qle_bool_iff in Hle. congruence. }
      constructor; auto.
      rewrite Forall_forall in *. intros z Hz.
      destruct (insert_sorted_In _ _ _ Hz) as [->|Hin]; auto.
Qed.

Lemma np_sort_sorted (l : list Q) : StronglySorted Qle (np_sort l).
Proof.
  induction l as [|x l IH]; simpl.
  - constructor.
  - now apply insert_sorted_sorted.
Qed.

Lemma sorted_nth_le (s : list Q) (i j : nat) :
  StronglySorted Qle s -> (i <= j)%nat -> (j < length s)%nat ->
  nth i s 0 <= nth j s 0.
Proof.
  intros Hs. revert i j.
  induction Hs as [|x s Hs IH Hall]; intros i j Hij Hj; simpl in Hj; [lia|].
  destruct i as [|i], j as [|j]; simpl; try lia.
  - apply Qle_refl.
  - rewrite Forall_forall in Hall. apply Hall, nth_In. lia.
  - apply IH; lia.
Qed.

Lemma floor_index_bounds (n : nat) (v : Q) :
  0 <= v -> v <= Qnat n ->
  (Z.to_nat (Qfloor v) <= n)%nat /\
  inject_Z (Qfloor v) == Qnat (Z.to_nat (Qfloor v)).
Proof.
  intros H0 Hn.
  assert (0 <= Qfloor v)%Z by (change 0%Z with (Qfloor 0); now apply Qfloor_resp_le).
  assert (Qfloor v <= Z.of_nat n)%Z.
  { rewrite <- (Qfloor_Z (Z.of_nat n)). now apply Qfloor_resp_le. }
  split; [lia|].
  unfold Qnat. rewrite Z2Nat.id by lia. reflexivity.
Qed.

Lemma fraction_bounds (v : Q) :
  0 <= v - inject_Z (Qfloor v) /\ v - inject_Z (Qfloor v) <= 1.
Proof.
  pose proof (Qfloor_le v) as Hlo.
  pose proof (Qlt_floor v) as Hhi.
  rewrite inject_Z_plus in Hhi. change (inject_Z 1) with 1 in Hhi.
  split; lra.
Qed.

(** The interpolated value lies between its two neighbours. *)
Lemma interpolate_bounds (s : list Q) (v : Q) :
  StronglySorted Qle s -> 0 <= v -> v <= Qnat (length s - 1) -> s <> [] ->
  nth (Z.to_nat (Qfloor v)) s 0 <= interpolate s v /\
  interpolate s v <= nth (Nat.min (S (Z.to_nat (Qfloor v))) (length s - 1)) s 0.
Proof.
  intros Hs H0 Hn Hne.
  destruct (floor_index_bounds _ _ H0 Hn) as [Hi _].
  destruct (fraction_bounds v) as [Hg0 Hg1].
  assert (Hlen : (0 < length s)%nat) by (destruct s; [congruence | simpl; lia]).
  unfold interpolate.
  set (i := Z.to_nat (Qfloor v)) in *.
  set (g := v - inject_Z (Qfloor v)) in *.
  set (lo := nth i s 0).
  set (hi := nth (Nat.min (S i) (length s - 1)) s 0).
  assert (Hd : 0 <= hi - lo).
  { assert (lo <= hi) by (apply sorted_nth_le; auto; lia). lra. }
  assert (H1 : 0 <= (hi - lo) * g) by (now apply Qmult_le_0_compat).
  assert (H2 : g * (hi - lo) <= 1 * (hi - lo)) by (now apply Qmult_le_compat_r).
  split; lra.
Qed.



(** On the timings 0.1, 0.3, 0.2, 0.5 numpy reports the median 0.25 and
    the percentiles 0.47 (95th) and 0.494 (99th). *)
Example percentile_example :
  let times := [1 # 10; 3 # 10; 2 # 10; 5 # 10] in
  median_q times == 25 # 100 /\
  percentile_q times 95 == 47 # 100 /\
  percentile_q times 99 == 494 # 1000.
Proof. repeat split. Qed.

(** ** Benchmark engine *)

Section Benchmark.

Context {World : Type} {host : Host World}.

Lemma sample_input_returns (self : ModelTester) (w : World) :
  exists x w', sample_input self w = (Ok x, w').
Proof.
  unfold sample_input, np_random_rand, np_random_randint, bind, lift, ret.
  destruct (Dtype_eqb _ _).
  - destruct (random_sample w); eauto.
  - destruct (random_integers 0 255 w); eauto.
Qed.

Lemma collect_m_length {A : Type} (n : nat) (body : M World A) :
  forall w l w', collect_m n body w = (Ok l, w') -> length l = n.
Proof.
  induction n as [|n IH]; simpl; intros w l w' H.
  - unfold ret in H. now inversion H.
  - unfold bind in H. destruct (body w) as [[a|e] w1]; [|discriminate].
    fold (@bind World (list A) (list A)) in H. unfold bind, ret in H.
    destruct (collect_m n body w1) as [[l0|e] w2] eqn:E; [|discriminate].
    inversion H; subst. simpl. f_equal. eauto.
Qed.

(** The speed test is the statistics of the timings its loop collects. *)
Lemma test_inference_speed_stats (self : ModelTester) (n warmup : nat)
  (w w0 w1 w2 : World) (x : ndarray) (times : list Q) :
  sample_input self w = (Ok x, w0) ->
  repeat_m warmup (run_once self x) w0 = (Ok tt, w1) ->
  collect_m n (timed_run self x) w1 = (Ok times, w2) ->
  test_inference_speed self n warmup w = (latency_stats n times, w2).
Proof.
  intros Hx Hwarm Htimes. unfold test_inference_speed, bind, of_result.
  now rewrite Hx, Hwarm, Htimes.
Qed.


End Benchmark.



(** ** Variation prober *)

Section Variations.

Context {World : Type} {host : Host World}.

(** The pattern dictionary always holds the same five names, whatever the
    element type and the random draws. *)
Lemma test_patterns_returns (self : ModelTester) (w : World) :
  exists pats w0,
    test_patterns self w = (Ok pats, w0) /\ dict_keys pats = pattern_names.
Proof.
  unfold test_patterns, np_random_rand, np_random_randn, np_random_randint,
    bind, lift, ret.
  destruct (random_sample w) as [u w1].
  destruct (standard_normal w1) as [n w2].
  destruct (Dtype_eqb _ _).
  - destruct (random_integers 0 256 w2) as [r w3].
    do 2 eexists. split; reflexivity.
  - do 2 eexists. split; reflexivity.
Qed.

Lemma pattern_names_NoDup : NoDup pattern_names.
Proof.
  unfold pattern_names.
  repeat (constructor; [simpl; intuition discriminate|]). constructor.
Qed.

(** The loop body never raises: the handler turns every exception into an
    entry. *)
Lemma probe_pattern_returns (self : ModelTester) (x : ndarray) (w : World) :
  exists entry w', probe_pattern self x w = (Ok entry, w').
Proof.
  unfold probe_pattern, try_except, ret.
  destruct (infer_pattern self x w) as [[v|e] w']; eauto.
Qed.

Lemma probe_pattern_failure (self : ModelTester) (x : ndarray) (w w' : World)
  (e : exn) :
  infer_pattern self x w = (Raise e, w') ->
  probe_pattern self x w = (Ok (failure_entry e), w').
Proof.
  intros H. unfold probe_pattern, try_except. now rewrite H.
Qed.

Lemma infer_pattern_run_raises (self : ModelTester) (x : ndarray) (w w' : World)
  (e : exn) :
  run_once self x w = (Raise e, w') ->
  infer_pattern self x w = (Raise e, w').
Proof.
  intros H. unfold infer_pattern, bind. now rewrite H.
Qed.

Lemma probe_patterns_returns (self : ModelTester) (pats : list (string * ndarray)) :
  forall results w, exists d w', probe_patterns self pats results w = (Ok d, w').
Proof.
  induction pats as [|[name x] pats IH]; intros results w; simpl.
  - unfold ret. eauto.
  - unfold bind. destruct (probe_pattern_returns self x w) as (entry & w1 & ->).
    apply IH.
Qed.

Lemma probe_patterns_app (self : ModelTester) (before after : list (string * ndarray)) :
  forall results w r1 w1,
    probe_patterns self before results w = (Ok r1, w1) ->
    probe_patterns self (before ++ after) results w = probe_patterns self after r1 w1.
Proof.
  induction before as [|[name x] before IH]; intros results w r1 w1 H; simpl in *.
  - unfold ret in H. now inversion H.
  - unfold bind in *. destruct (probe_pattern self x w) as [[entry|e] w2];
      [|discriminate].
    now apply IH.
Qed.

(** Entries already recorded survive the rest of the loop unless a later
    pattern carries the same name. *)
Lemma probe_patterns_keeps (self : ModelTester) (pats : list (string * ndarray)) :
  forall results w d w' k,
    probe_patterns self pats results w = (Ok d, w') ->
    ~ In k (dict_keys pats) ->
    dict_get d k = dict_get results k.
Proof.
  induction pats as [|[name x] pats IH]; intros results w d w' k H Hk; simpl in *.
  - unfold ret in H. now inversion H.
  - unfold bind in H. destruct (probe_pattern self x w) as [[entry|e] w2];
      [|discriminate].
    rewrite (IH _ _ _ _ k H) by tauto.
    apply dict_get_set_other. intros ->. tauto.
Qed.

(** Each pattern's entry in the result is the one its own turn produced. *)
Lemma probe_patterns_entry (self : ModelTester)
  (before after : list (string * ndarray)) (name : string) (x : ndarray)
  (w w1 w2 w' : World) (r1 d : pydict) (entry : pyval) :
  NoDup (dict_keys (before ++ (name, x) :: after)) ->
  probe_patterns self before [] w = (Ok r1, w1) ->
  probe_pattern self x w1 = (Ok entry, w2) ->
  probe_patterns self (before ++ (name, x) :: after) [] w = (Ok d, w') ->
  dict_get d name = Some entry.
Proof.
  intros Hnd Hbefore Hturn Hall.
  rewrite (probe_patterns_app _ _ _ _ _ _ _ Hbefore) in Hall.
  simpl in Hall. unfold bind in Hall. rewrite Hturn in Hall.
  rewrite (probe_patterns_keeps _ _ _ _ _ _ name Hall).
  - apply dict_get_set_same.
  - unfold dict_keys in Hnd. rewrite map_app in Hnd. simpl in Hnd.
    apply NoDup_remove_2 in Hnd. intros Hin. apply Hnd, in_or_app. now right.
Qed.

Lemma probe_patterns_covers (self : ModelTester) (pats : list (string * ndarray)) :
  forall results w d w' k,
    probe_patterns self pats results w = (Ok d, w') ->
    In k (dict_keys pats) ->
    exists entry, dict_get d k = Some entry.
Proof.
  induction pats as [|[name x] pats IH]; intros results w d w' k H Hk; simpl in *.
  - tauto.
  - unfold bind in H. destruct (probe_pattern self x w) as [[entry|e] w2];
      [|discriminate].
    destruct (in_dec string_dec k (dict_keys pats)) as [Hin|Hout].
    + eapply IH; eauto.
    + destruct Hk as [<-|Hk]; [|tauto].
      rewrite (probe_patterns_keeps _ _ _ _ _ _ name H Hout).
      rewrite dict_get_set_same. eauto.
Qed.

Lemma probe_patterns_keys (self : ModelTester) (pats : list (string * ndarray)) :
  forall results w d w',
    probe_patterns self pats results w = (Ok d, w') ->
    NoDup (dict_keys results ++ dict_keys pats) ->
    dict_keys d = dict_keys results ++ dict_keys pats.
Proof.
  induction pats as [|[name x] pats IH]; intros results w d w' H Hnd; simpl in *.
  - unfold ret in H. inversion H. now rewrite app_nil_r.
  - unfold bind in H. destruct (probe_pattern self x w) as [[entry|e] w2];
      [|discriminate].
    assert (Hfresh : existsb (String.eqb name) (dict_keys results) = false).
    { apply not_true_is_false. intros Hex.
      apply existsb_exists in Hex as (k & Hk & Heq).
      apply String.eqb_eq in Heq. subst k.
      apply NoDup_remove_2 in Hnd. apply Hnd, in_or_app. now left. }
    assert (Hkeys : dict_keys (dict_set results name entry)
                    = dict_keys results ++ [name])
      by (now rewrite dict_keys_set, Hfresh).
    rewrite (IH _ _ _ _ H); rewrite Hkeys, <- app_assoc; [reflexivity | exact Hnd].
Qed.

(** C3.  When the inference of one pattern raises at its turn of the loop,
    the prober still returns a mapping; in it that pattern's entry is
    [success = False] with the message of the exception, and each of the five
    pattern names has an entry. *)
Theorem variation_failure_is_isolated (self : ModelTester) (w w0 w1 w2 : World)
  (pats before after : list (string * ndarray)) (name : string) (x : ndarray)
  (r1 : pydict) (e : exn) :
  test_patterns self w = (Ok pats, w0) ->
  pats = before ++ (name, x) :: after ->
  probe_patterns self before [] w0 = (Ok r1, w1) ->
  run_once self x w1 = (Raise e, w2) ->
  exists d w',
    test_input_variations self w = (Ok (PDict d), w') /\
    dict_get d name =
      Some (PDict [("success", PBool false); ("error", PStr (exn_msg e))]) /\
    forall other, In other pattern_names ->
      exists entry, dict_get d other = Some entry.
Proof.
  intros Hpats Hsplit Hbefore Hraise.
  destruct (test_patterns_returns self w) as (pats' & w0' & Hpats' & Hkeys).
  rewrite Hpats in Hpats'. inversion Hpats'; subst pats' w0'. clear Hpats'.
  destruct (probe_patterns_returns self pats [] w0) as (d & w' & Hloop).
  exists d, w'. split; [|split].
  - unfold test_input_variations, bind, ret. now rewrite Hpats, Hloop.
  - apply infer_pattern_run_raises, probe_pattern_failure in Hraise.
    subst pats.
    apply (probe_patterns_entry self before after name x w0 w1 w2 w' r1 d
             (failure_entry e)); auto.
    rewrite Hkeys. apply pattern_names_NoDup.
  - intros other Hin. rewrite <- Hkeys in Hin.
    eapply probe_patterns_covers; eauto.
Qed.

End Variations.

Lemma variation_failure_is_isolated_witness :
  exists d,
    fst (test_input_variations (host := Demo.host) Demo.tester Demo.start)
      = Ok (PDict d) /\
    dict_get d "ones" =
      Some (PDict [("success", PBool false);
                   ("error", PStr "Failed to invoke the interpreter")]) /\
    forall other, In other pattern_names ->
      exists entry, dict_get d other = Some entry.
Proof.
  edestruct (variation_failure_is_isolated (host := Demo.host) Demo.tester
               Demo.start) with (name := "ones")
    (before := [("zeros", np_zeros [1; 2; 2; 3]%nat Float32)])
    as (d & w' & Hrun & Hentry & Hall).
  - reflexivity.
  - reflexivity.
  - reflexivity.
  - reflexivity.
  - exists d. rewrite Hrun. simpl. auto.
Defined.

Section RankOne.

Context {World : Type} {host : Host World}.

Lemma ravel_rank1 (a : ndarray) (n : nat) :
  shape a = [S n] ->
  ravel a = item a [0%nat] :: map (item a) (map (fun i => [i]) (seq 1 n)).
Proof.
  intros Hs. unfold ravel. rewrite Hs. cbn [ndindex seq flat_map map app].
  f_equal.
Qed.

(** The entry computed from a non-empty output of rank one. *)
Lemma variation_entry_rank1 (output : ndarray) (n : nat) :
  shape output = [S n] ->
  exists mn mx,
    variation_entry output =
    Ok (PDict
      [ ("success", PBool true);
        ("output_shape", PShape [S n]);
        ("output_mean", PFloat (np_mean (ravel output)));
        ("output_std", PFloat (np_std (ravel output)));
        ("output_min", PFloat (Finite mn));
        ("output_max", PFloat (Finite mx));
        ("top_class", PNone);
        ("top_confidence", PNone) ]).
Proof.
  intros Hs. unfold variation_entry.
  rewrite (ravel_rank1 _ _ Hs), Hs. cbn [np_min np_max rbind length Nat.ltb Nat.leb].
  eauto.
Qed.

(** C10.  When the inference of a pattern succeeds at its turn and the model
    answers with a non-empty output of rank one, the mapping holds for that
    pattern an entry with [success = True] whose [top_class] and
    [top_confidence] are both [None]. *)
Theorem rank1_output_has_no_top_class (self : ModelTester) (w w0 w1 w2 w3 : World)
  (pats before after : list (string * ndarray)) (name : string) (x : ndarray)
  (r1 : pydict) (output : ndarray) (n : nat) :
  test_patterns self w = (Ok pats, w0) ->
  pats = before ++ (name, x) :: after ->
  probe_patterns self before [] w0 = (Ok r1, w1) ->
  run_once self x w1 = (Ok tt, w2) ->
  get_tensor (td_index (output_details_0 self)) w2 = (Ok output, w3) ->
  shape output = [S n] ->
  exists d w' entry,
    test_input_variations self w = (Ok (PDict d), w') /\
    dict_get d name = Some (PDict entry) /\
    dict_get entry "success" = Some (PBool true) /\
    dict_get entry "top_class" = Some PNone /\
    dict_get entry "top_confidence" = Some PNone.
Proof.
  intros Hpats Hsplit Hbefore Hrun Hget Hshape.
  destruct (test_patterns_returns self w) as (pats' & w0' & Hpats' & Hkeys).
  rewrite Hpats in Hpats'. inversion Hpats'; subst pats' w0'. clear Hpats'.
  destruct (probe_patterns_returns self pats [] w0) as (d & w' & Hloop).
  destruct (variation_entry_rank1 output n Hshape) as (mn & mx & Hentry).
  exists d, w'. eexists. split; [|split].
  - unfold test_input_variations, bind, ret. now rewrite Hpats, Hloop.
  - subst pats.
    apply (probe_patterns_entry self before after name x w0 w1 w3 w' r1 d); auto.
    + rewrite Hkeys. apply pattern_names_NoDup.
    + unfold probe_pattern, try_except, infer_pattern, bind, of_result.
      rewrite Hrun, Hget, Hentry. reflexivity.
  - repeat split; reflexivity.
Qed.

End RankOne.

Lemma rank1_output_has_no_top_class_witness :
  exists d entry,
    fst (test_input_variations (host := Demo.flat_host) Demo.tester Demo.start)
      = Ok (PDict d) /\
    dict_get d "zeros" = Some (PDict entry) /\
    dict_get entry "success" = Some (PBool true) /\
    dict_get entry "top_class" = Some PNone /\
    dict_get entry "top_confidence" = Some PNone.
Proof.
  edestruct (rank1_output_has_no_top_class (host := Demo.flat_host) Demo.tester
               Demo.start) with (name := "zeros") (before := @nil (string * ndarray))
    (n := 2%nat)
    as (d & w' & entry & Hrun & Hentry & Hrest).
  - reflexivity.
  - reflexivity.
  - reflexivity.
  - reflexivity.
  - reflexivity.
  - reflexivity.
  - exists d, entry. rewrite Hrun. simpl. auto.
Defined.

(** ** Synthetic input generator *)

Section Generator.

Context {World : Type} {host : Host World}.

Lemma cast_zero (dt : Dtype) : cast dt 0 = 0.
Proof. destruct dt; reflexivity. Qed.

Lemma cast_one (dt : Dtype) : cast dt 1 = 1.
Proof. destruct dt; reflexivity. Qed.

(** C6.  For every input shape and element type, the pattern dictionary
    holds under "zeros" a tensor of that shape and type whose elements are
    all the type's zero, and under "ones" one whose elements are all the
    type's one. *)
Theorem zeros_and_ones_patterns (self : ModelTester) (w : World) :
  exists pats w0 z o,
    test_patterns self w = (Ok pats, w0) /\
    dict_get pats "zeros" = Some z /\
    dict_get pats "ones" = Some o /\
    shape z = td_shape (input_details_0 self) /\
    dtype z = td_dtype (input_details_0 self) /\
    shape o = td_shape (input_details_0 self) /\
    dtype o = td_dtype (input_details_0 self) /\
    (forall i, item z i = cast (dtype z) 0) /\
    (forall i, item o i = cast (dtype o) 1) /\
    Forall (eq 0) (ravel z) /\
    Forall (eq 1) (ravel o).
Proof.
  unfold test_patterns, np_random_rand, np_random_randn, np_random_randint,
    bind, lift, ret.
  destruct (random_sample w) as [u w1].
  destruct (standard_normal w1) as [n w2].
  assert (Hall : forall s dt c, Forall (eq c) (ravel (mk_ndarray s dt (fun _ => c)))).
  { intros s dt c. unfold ravel. simpl. apply Forall_map, Forall_forall. auto. }
  destruct (Dtype_eqb _ _).
  - destruct (random_integers 0 256 w2) as [r w3].
    do 4 eexists. split; [reflexivity|]. cbn.
    repeat split; try reflexivity; try apply Hall;
      intros; [rewrite cast_zero | rewrite cast_one]; reflexivity.
  - do 4 eexists. split; [reflexivity|]. cbn.
    repeat split; try reflexivity; try apply Hall;
      intros; [rewrite cast_zero | rewrite cast_one]; reflexivity.
Qed.

(** C5, as the code has it.  For a shape whose rank is not 2, 3 or 4 the
    audio-style generator prints a diagnostic and returns [None]: it
    produces no tensor and raises nothing. *)
Theorem audio_data_unsupported_rank (shape : list nat) (w : World) :
  length shape <> 2%nat -> length shape <> 3%nat -> length shape <> 4%nat ->
  create_sample_audio_data shape w =
    (Ok None, print ("Unexpected audio shape: " ++ repr_shape shape)%string w).
Proof.
  intros H2 H3 H4. unfold create_sample_audio_data.
  apply Nat.eqb_neq in H2, H3, H4. rewrite H2, H3, H4.
  reflexivity.
Qed.

End Generator.

(** The patterns of an 8-bit model: "max_values" is 255 throughout and
    "random_uniform" is the integer draw, filed at its original position. *)
Example uint8_patterns_example :
  match fst (test_patterns (host := Demo.host)
               (mk_tester "q.tflite" (mk_detail "in" 0 [1%nat; 2%nat] UInt8)
                  (mk_detail "out" 1 [1%nat; 3%nat] UInt8) 1 1)
               Demo.start) with
  | Ok pats => map (fun p => (fst p, dtype (snd p), ravel (snd p))) pats
  | Raise _ => []
  end =
  [ ("zeros", UInt8, [0; 0]);
    ("ones", UInt8, [1; 1]);
    ("random_uniform", UInt8, [7; 7]);
    ("random_normal", UInt8, [0; 0]);
    ("max_values", UInt8, [255; 255]) ].
Proof. vm_compute. reflexivity. Qed.

Lemma audio_data_unsupported_rank_witness :
  create_sample_audio_data (host := Demo.host) [5%nat] Demo.start =
    (Ok None, Demo.mk_world 0 0 ["Unexpected audio shape: [5]"]).
Proof.
  apply (audio_data_unsupported_rank (host := Demo.host) [5%nat] Demo.start);
    simpl; lia.
Defined.

(** C5 with "raises an error" does not hold: the shape [[5]] has rank one,
    and on it the generator returns normally, with [None] and a line on the
    console, instead of raising. *)
Lemma audio_data_rank1_does_not_raise :
  length [5%nat] = 1%nat /\
  create_sample_audio_data (host := Demo.host) [5%nat] Demo.start =
    (Ok None, Demo.mk_world 0 0 ["Unexpected audio shape: [5]"]) /\
  ~ (exists e w',
       create_sample_audio_data (host := Demo.host) [5%nat] Demo.start
         = (Raise e, w')).
Proof.
  split; [reflexivity|]. split; [reflexivity|].
  intros (e & w' & Hr). discriminate Hr.
Qed.

(** ** Audio preprocessor *)

Section Audio.

Context {World : Type} {host : Host World}.

(** C4.  For a rank-3 target shape with [T] time steps and [n] mel bands,
    once the waveform is decoded and librosa returns a spectrogram of [n]
    bands and [t] frames, the preprocessor returns a 32-bit float tensor of
    shape [[1; T; n]]: time step [j] holds frame [j] of the spectrogram when
    there is one (so the frames from [T] on are cut off), and zeros
    otherwise. *)
Theorem audio_time_axis_is_fitted (audio_path : string) (b T n : nat)
  (sample_rate : Z) (w w' : World) (audio : list Q) (sr : Z) (t : nat) :
  librosa_load audio_path sample_rate w = (Ok (audio, sr), w') ->
  shape (librosa_melspectrogram audio sr n) = [n; t] ->
  exists out,
    preprocess_audio_for_model audio_path [b; T; n] sample_rate w = (Ok out, w') /\
    shape out = [1%nat; T; n] /\
    dtype out = Float32 /\
    forall j i, (j < T)%nat -> (i < n)%nat ->
      item out [0%nat; j; i] =
        if (j <? t)%nat then item (librosa_melspectrogram audio sr n) [i; j] else 0.
Proof.
  intros Hload Hshape.
  unfold preprocess_audio_for_model, bind. rewrite Hload.
  cbn [length Nat.eqb nth]. rewrite Hshape. cbn [nth].
  destruct (T <? t)%nat eqn:E.
  - apply Nat.ltb_lt in E.
    eexists. split; [reflexivity|].
    unfold take_columns. rewrite Hshape. cbn -[Nat.ltb Nat.min].
    rewrite Nat.min_l by lia.
    split; [reflexivity|]. split; [reflexivity|].
    intros j i Hj Hi.
    assert (Hlt : (j <? t)%nat = true) by (apply Nat.ltb_lt; lia).
    now rewrite Hlt.
  - apply Nat.ltb_ge in E.
    eexists. split; [reflexivity|].
    unfold pad_columns. rewrite Hshape. cbn -[Nat.ltb Nat.add Nat.sub].
    replace (t + (T - t))%nat with T by lia.
    split; [reflexivity|]. split; [reflexivity|].
    intros j i Hj Hi. reflexivity.
Qed.

End Audio.

Lemma audio_time_axis_is_fitted_witness :
  exists out,
    preprocess_audio_for_model (host := Demo.host) "bird.wav" [1; 8; 2]%nat 22050
      Demo.start = (Ok out, Demo.start) /\
    shape out = [1; 8; 2]%nat /\
    dtype out = Float32 /\
    forall j i, (j < 8)%nat -> (i < 2)%nat ->
      item out [0%nat; j; i] =
        if (j <? 5)%nat then item Demo.frames [i; j] else 0.
Proof.
  apply (audio_time_axis_is_fitted (host := Demo.host) "bird.wav" 1 8 2 22050
           Demo.start Demo.start [0; 1 # 2; 0] 22050 5).
  - reflexivity.
  - reflexivity.
Defined.

(** The same preprocessing on a target with fewer time steps than the
    spectrogram has frames: the first three frames are kept. *)
Example audio_truncation_example :
  match fst (preprocess_audio_for_model (host := Demo.host) "bird.wav"
               [1; 3; 2]%nat 22050 Demo.start) with
  | Ok out => (shape out, map (item out) (ndindex (shape out)))
  | Raise _ => ([], [])
  end = ([1; 3; 2]%nat, [1; 11; 2; 12; 3; 13]).
Proof. vm_compute. reflexivity. Qed.

Example audio_padding_example :
  match fst (preprocess_audio_for_model (host := Demo.host) "bird.wav"
               [1; 7; 2]%nat 22050 Demo.start) with
  | Ok out => (shape out, map (item out) (ndindex (shape out)))
  | Raise _ => ([], [])
  end = ([1; 7; 2]%nat, [1; 11; 2; 12; 3; 13; 4; 14; 5; 15; 0; 0; 0; 0]).
Proof. vm_compute. reflexivity. Qed.

(** ** Report aggregator *)

Section Report.

Context {World : Type} {host : Host World}.

(** One step of a run that returned: the first computation of a [bind]
    returned too. *)
Ltac returned H v w' E :=
  match type of H with
  | bind ?c ?k ?w = (Ok _, _) =>
      let e := fresh "e" in
      change (bind c k w) with
        (match c w with (Ok a, w1) => k a w1 | (Raise e0, w1) => (Raise e0, w1) end) in H;
      destruct (c w) as [[v|e] w'] eqn:E; [|discriminate H]
  end.

(** The report is the document of the six parts whenever each step
    returns; the memory step is the check wrapped in its handler. *)
Lemma generate_test_report_runs (self : ModelTester) (output_path : option string)
  (w wa wb wc wd we wf wg : World) (info speed vars mem stab : pyval)
  (ts : string) :
  get_model_info self (print "Generating comprehensive test report..." w)
    = (Ok info, wa) ->
  strftime "%Y-%m-%d %H:%M:%S" wa = (ts, wb) ->
  test_inference_speed self 100 10 (print "Running speed test..." wb)
    = (Ok speed, wc) ->
  test_input_variations self (print "Testing input variations..." wc)
    = (Ok vars, wd) ->
  try_except (test_memory_usage self) is_ImportError
    (fun _ => ret memory_unavailable) (print "Testing memory usage..." wd)
    = (Ok mem, we) ->
  test_numerical_stability self 10 (print "Testing numerical stability..." we)
    = (Ok stab, wf) ->
  save_report output_path (report_document info ts speed vars mem stab) wf
    = (Ok tt, wg) ->
  generate_test_report self output_path w
    = (Ok (report_document info ts speed vars mem stab), wg).
Proof.
  intros Hinfo Hts Hspeed Hvars Hmem Hstab Hsave.
  unfold generate_test_report, bind, effect, lift.
  rewrite Hinfo, Hts, Hspeed, Hvars, Hmem, Hstab.
  unfold report_document in Hsave. cbn [dict_set String.eqb Ascii.eqb Bool.eqb].
  now rewrite Hsave.
Qed.

(** C8.  A report that [generate_test_report] returns is a dictionary with
    the keys "model_info", "timestamp" and "tests", in this order, and its
    "tests" entry is a dictionary with the keys "speed", "input_variations",
    "memory" and "stability". *)
Theorem report_has_the_documented_keys (self : ModelTester)
  (output_path : option string) (w w' : World) (report : pyval) :
  generate_test_report self output_path w = (Ok report, w') ->
  exists top tests,
    report = PDict top /\
    dict_keys top = ["model_info"; "timestamp"; "tests"] /\
    dict_get top "tests" = Some (PDict tests) /\
    dict_keys tests = ["speed"; "input_variations"; "memory"; "stability"].
Proof.
  intros H. unfold generate_test_report in H.
  returned H u0 w0 E0. returned H info wa Einfo. returned H ts wb Ets.
  returned H u1 w1 E1. returned H speed wc Espeed.
  returned H u2 w2 E2. returned H vars wd Evars.
  returned H u3 w3 E3. returned H mem we Emem.
  returned H u4 w4 E4. returned H stab wf Estab.
  returned H u5 wg Esave.
  unfold ret in H. inversion H; subst.
  do 2 eexists. split; [reflexivity|]. repeat split.
Qed.

(** When [psutil] cannot be imported the memory check raises before it
    touches the model, and the handler of the report turns that into the
    error entry. *)
Lemma memory_check_unavailable (self : ModelTester) (w w' : World) (e : exn) :
  import_psutil w = (Raise e, w') ->
  is_ImportError e = true ->
  try_except (test_memory_usage self) is_ImportError
    (fun _ => ret memory_unavailable) w = (Ok memory_unavailable, w').
Proof.
  intros Himport Hclass.
  unfold try_except, test_memory_usage, bind. now rewrite Himport, Hclass.
Qed.

(** C7.  When importing [psutil] fails in the memory check, the report is
    still generated provided the other steps return: its "memory" entry is
    the error entry "psutil not available", and its "stability" entry is the
    result of the stability check, run from the world the failed import
    left. *)
Theorem memory_unavailable_is_not_fatal (self : ModelTester)
  (output_path : option string) (w wa wb wc wd we wf wg : World)
  (info speed vars stab : pyval) (ts : string) (e : exn) :
  get_model_info self (print "Generating comprehensive test report..." w)
    = (Ok info, wa) ->
  strftime "%Y-%m-%d %H:%M:%S" wa = (ts, wb) ->
  test_inference_speed self 100 10 (print "Running speed test..." wb)
    = (Ok speed, wc) ->
  test_input_variations self (print "Testing input variations..." wc)
    = (Ok vars, wd) ->
  import_psutil (print "Testing memory usage..." wd) = (Raise e, we) ->
  is_ImportError e = true ->
  test_numerical_stability self 10 (print "Testing numerical stability..." we)
    = (Ok stab, wf) ->
  save_report output_path
    (report_document info ts speed vars memory_unavailable stab) wf
    = (Ok tt, wg) ->
  exists top tests,
    generate_test_report self output_path w = (Ok (PDict top), wg) /\
    dict_get top "tests" = Some (PDict tests) /\
    dict_get tests "memory" = Some (PDict [("error", PStr "psutil not available")]) /\
    dict_get tests "speed" = Some speed /\
    dict_get tests "input_variations" = Some vars /\
    dict_get tests "stability" = Some stab.
Proof.
  intros Hinfo Hts Hspeed Hvars Himport Hclass Hstab Hsave.
  pose proof (memory_check_unavailable self _ _ _ Himport Hclass) as Hmem.
  do 2 eexists. split.
  - exact (generate_test_report_runs self output_path _ _ _ _ _ _ _ _ _ _ _ _ _ _
             Hinfo Hts Hspeed Hvars Hmem Hstab Hsave).
  - repeat split.
Qed.

End Report.

Lemma report_has_the_documented_keys_witness :
  exists top tests,
    fst (generate_test_report (host := Demo.host) Demo.tester None Demo.start)
      = Ok (PDict top) /\
    dict_keys top = ["model_info"; "timestamp"; "tests"] /\
    dict_get top "tests" = Some (PDict tests) /\
    dict_keys tests = ["speed"; "input_variations"; "memory"; "stability"].
Proof.
  eassert (Hrun : generate_test_report (host := Demo.host) Demo.tester None
                    Demo.start = (Ok _, _)).
  { vm_compute. reflexivity. }
  destruct (report_has_the_documented_keys (host := Demo.host) _ _ _ _ _ Hrun)
    as (top & tests & Heq & Hkeys).
  exists top, tests. rewrite Hrun. cbn [fst].
  split; [f_equal; exact Heq | exact Hkeys].
Defined.

Lemma memory_unavailable_is_not_fatal_witness :
  exists top tests stab,
    fst (generate_test_report (host := Demo.host) Demo.tester None Demo.start)
      = Ok (PDict top) /\
    dict_get top "tests" = Some (PDict tests) /\
    dict_get tests "memory" = Some (PDict [("error", PStr "psutil not available")]) /\
    dict_get tests "stability" = Some stab.
Proof.
  edestruct (memory_unavailable_is_not_fatal (host := Demo.host) Demo.tester None
               Demo.start)
    as (top & tests & Hrun & Htests & Hmem & _ & _ & Hstab).
  - reflexivity.
  - reflexivity.
  - vm_compute. reflexivity.
  - vm_compute. reflexivity.
  - reflexivity.
  - reflexivity.
  - vm_compute. reflexivity.
  - reflexivity.
  - exists top, tests. eexists. rewrite Hrun. cbn [fst]. eauto.
Defined.

(** ** Indices of a shape *)

Lemma ndindex_In (s : list nat) (idx : list nat) :
  In idx (ndindex s) <-> Forall2 lt idx s.
Proof.
  revert idx. induction s as [|d s IH]; intros idx; simpl.
  - split.
    + intros [<-|[]]. constructor.
    + intros H. inversion H. now left.
  - rewrite in_flat_map. split.
    + intros (i & Hi & Hin). apply in_map_iff in Hin as (idx' & <- & Hin').
      apply in_seq in Hi. constructor; [lia | now apply IH].
    + intros H. inversion H as [|i d' idx' s' Hlt Hrest]; subst.
      exists i. split; [apply in_seq; lia|].
      apply in_map, IH, Hrest.
Qed.

Lemma ndindex_nonempty (s : list nat) :
  Forall (lt 0) s -> ndindex s <> [].
Proof.
  intros Hpos.
  assert (Hin : In (map (fun _ => 0%nat) s) (ndindex s)).
  { apply ndindex_In. induction Hpos; simpl; constructor; auto. }
  intros E. rewrite E in Hin. exact Hin.
Qed.

Lemma map_flat_map_comm {A B C : Type} (f : B -> C) (g : A -> list B) (l : list A) :
  map f (flat_map g l) = flat_map (fun x => map f (g x)) l.
Proof.
  induction l as [|x l IH]; simpl; auto.
  now rewrite map_app, IH.
Qed.

Lemma flat_map_seq_nth {A B : Type} (g : A -> list B) (l : list A) (d : A) :
  flat_map (fun k => g (nth k l d)) (seq 0 (length l)) = flat_map g l.
Proof.
  induction l as [|x l IH]; simpl; auto.
  f_equal. rewrite <- seq_shift, flat_map_concat_map, map_map,
    <- flat_map_concat_map. exact IH.
Qed.

(** ** Stability checker *)

Section Stability.

Context {World : Type} {host : Host World}.

Lemma stack_same_shape (o0 : ndarray) (rest : list ndarray) :
  (forall o, In o rest -> shape o = shape o0) ->
  stack o0 rest = Ok (stacked o0 rest).
Proof.
  intros Hsame. unfold stack.
  replace (forallb _ rest) with true; [reflexivity|].
  symmetry. apply forallb_forall. intros o Ho.
  unfold shape_eqb. rewrite (Hsame o Ho).
  destruct (list_eq_dec Nat.eq_dec (shape o0) (shape o0)); congruence.
Qed.

(** Flattening the stacked array lists the elements of the outputs one
    output after the other. *)
Lemma ravel_stacked (o0 : ndarray) (rest : list ndarray) :
  (forall o, In o rest -> shape o = shape o0) ->
  ravel (stacked o0 rest) = concat (map ravel (o0 :: rest)).
Proof.
  intros Hsame. unfold ravel at 1. cbn [stacked shape item ndindex].
  rewrite map_flat_map_comm.
  rewrite (flat_map_ext _
             (fun k => map (item (nth k (o0 :: rest) o0)) (ndindex (shape o0)))).
  2:{ intros k. now rewrite map_map. }
  change (S (length rest)) with (length (o0 :: rest)).
  rewrite (flat_map_seq_nth (fun o => map (item o) (ndindex (shape o0)))).
  rewrite flat_map_concat_map. f_equal.
  apply map_ext_in. intros o [<-|Ho]; unfold ravel; [reflexivity|].
  now rewrite (Hsame o Ho).
Qed.

Lemma ravel_nonempty (a : ndarray) :
  ndindex (shape a) <> [] -> exists x l, ravel a = x :: l.
Proof.
  unfold ravel. destruct (ndindex (shape a)); [congruence|].
  simpl. eauto.
Qed.

(** The analysis returns on every non-empty list of outputs of one shape
    with positive dimensions. *)
Lemma stability_report_returns (n : nat) (o0 : ndarray) (rest : list ndarray) :
  (forall o, In o rest -> shape o = shape o0) ->
  Forall (lt 0) (shape o0) ->
  exists max_variance mean_variance,
    stability_report n (o0 :: rest) =
    Ok (PDict
      [ ("num_tests", PInt (Z.of_nat n));
        ("is_deterministic",
           PBool (allclose
                    (mk_ndarray (shape o0) (dtype o0)
                       (fun i => item (stacked o0 rest) (0%nat :: i)))
                    (drop_first (stacked o0 rest)) rtol atol));
        ("max_variance", PFloat (Finite max_variance));
        ("mean_variance", PFloat mean_variance);
        ("output_std", PFloat (np_std (ravel (stacked o0 rest))));
        ("coefficient_of_variation",
           if nf_nonzero (np_mean (ravel (stacked o0 rest)))
           then PFloat (nf_divide (np_std (ravel (stacked o0 rest)))
                                  (np_mean (ravel (stacked o0 rest))))
           else PInt 0) ]).
Proof.
  intros Hsame Hpos. unfold stability_report.
  rewrite (stack_same_shape _ _ Hsame). cbn [rbind].
  destruct (ravel_nonempty (var_axis0 (stacked o0 rest))) as (v & vs & Hv).
  { cbn. now apply ndindex_nonempty. }
  rewrite Hv. cbn [np_max rbind first_row stacked shape dtype].
  eauto.
Qed.

Lemma test_numerical_stability_report (self : ModelTester) (n : nat)
  (w w0 w1 : World) (x : ndarray) (outs : list ndarray) :
  sample_input self (random_seed 42 w) = (Ok x, w0) ->
  collect_m n (run_output self x) w0 = (Ok outs, w1) ->
  test_numerical_stability self n w = (stability_report n outs, w1).
Proof.
  intros Hx Houts. unfold test_numerical_stability, bind, effect, of_result.
  now rewrite Hx, Houts.
Qed.

(** [np.isclose] on finite values is the tolerance inequality: the extra
    equality test adds nothing. *)
Lemma isclose_spec (x y : Q) :
  isclose rtol atol x y = true <-> Qabs (x - y) <= atol + rtol * Qabs y.
Proof.
  unfold isclose. rewrite orb_true_iff, Qle_bool_iff, Qeq_bool_iff.
  split; [|now left].
  intros [H|H]; [exact H|].
  assert (Hd : x - y == 0) by (rewrite H; ring).
  rewrite (Qabs_wd _ _ Hd). change (Qabs 0) with 0.
  pose proof (Qabs_nonneg y) as Hy.
  assert (0 <= rtol * Qabs y) by (apply Qmult_le_0_compat; [discriminate | exact Hy]).
  assert (0 <= atol) by discriminate.
  lra.
Qed.

(** The determinism flag compares the first output with each later one at
    every index of the output shape. *)
Lemma allclose_first_rest (o0 : ndarray) (rest : list ndarray) :
  allclose
    (mk_ndarray (shape o0) (dtype o0) (fun i => item (stacked o0 rest) (0%nat :: i)))
    (drop_first (stacked o0 rest)) rtol atol = true <->
  (forall o, In o rest -> forall idx, Forall2 lt idx (shape o0) ->
     Qabs (item o0 idx - item o idx) <= atol + rtol * Qabs (item o idx)).
Proof.
  unfold allclose. cbn [drop_first stacked shape dtype item].
  replace (S (length rest) - 1)%nat with (length rest) by lia.
  rewrite forallb_forall. split.
  - intros H o Ho idx Hidx.
    destruct (In_nth _ _ o0 Ho) as (k & Hk & Hnth).
    specialize (H (k :: idx)).
    rewrite ndindex_In in H. cbn [tl nth] in H.
    rewrite Hnth in H. apply isclose_spec, H. now constructor.
  - intros H i Hi. apply ndindex_In in Hi.
    inversion Hi as [|k d idx s Hk Hidx]; subst. cbn [tl nth].
    apply isclose_spec, H; [now apply nth_In | exact Hidx].
Qed.

(** C1.  Once the stability loop has collected its outputs (all of the
    model's output shape, with positive dimensions), the check returns, and
    the [is_deterministic] flag it reports is true exactly when, at every
    index of the output shape, the first output [o0] and each later output
    [o] satisfy [|o0 - o| <= 1e-7 + 1e-7 * |o|]. *)
Theorem is_deterministic_iff_all_close (self : ModelTester) (n : nat)
  (w w0 w1 : World) (x o0 : ndarray) (rest : list ndarray) :
  (2 <= n)%nat ->
  sample_input self (random_seed 42 w) = (Ok x, w0) ->
  collect_m n (run_output self x) w0 = (Ok (o0 :: rest), w1) ->
  (forall o, In o rest -> shape o = shape o0) ->
  Forall (lt 0) (shape o0) ->
  exists d flag,
    test_numerical_stability self n w = (Ok (PDict d), w1) /\
    length rest = (n - 1)%nat /\
    dict_get d "is_deterministic" = Some (PBool flag) /\
    (flag = true <->
     forall o, In o rest -> forall idx, Forall2 lt idx (shape o0) ->
       Qabs (item o0 idx - item o idx)
         <= (1 # 10000000) + (1 # 10000000) * Qabs (item o idx)).
Proof.
  intros Hn Hx Houts Hsame Hpos.
  rewrite (test_numerical_stability_report _ _ _ _ _ _ _ Hx Houts).
  destruct (stability_report_returns n o0 rest Hsame Hpos) as (mx & mv & ->).
  do 2 eexists. split; [reflexivity|]. split.
  { apply collect_m_length in Houts. simpl in Houts. lia. }
  split; [reflexivity|].
  apply allclose_first_rest.
Qed.

(** C9.  On the same collected outputs, the reported coefficient of
    variation is the integer 0 when the mean [m] over all elements of all
    outputs is zero, and otherwise the finite quotient of the overall
    standard deviation by [m]: the division is never by zero. *)
Theorem coefficient_of_variation_guarded (self : ModelTester) (n : nat)
  (w w0 w1 : World) (x o0 : ndarray) (rest : list ndarray) :
  sample_input self (random_seed 42 w) = (Ok x, w0) ->
  collect_m n (run_output self x) w0 = (Ok (o0 :: rest), w1) ->
  (forall o, In o rest -> shape o = shape o0) ->
  Forall (lt 0) (shape o0) ->
  let elements := concat (map ravel (o0 :: rest)) in
  let m := sum_q elements / Qnat (length elements) in
  exists d,
    test_numerical_stability self n w = (Ok (PDict d), w1) /\
    dict_get d "output_std" = Some (PFloat (Finite (np_sqrt (var_q elements)))) /\
    (m == 0 ->
     dict_get d "coefficient_of_variation" = Some (PInt 0)) /\
    (~ m == 0 ->
     dict_get d "coefficient_of_variation" =
       Some (PFloat (Finite (np_sqrt (var_q elements) / m)))).
Proof.
  intros Hx Houts Hsame Hpos elements m.
  rewrite (test_numerical_stability_report _ _ _ _ _ _ _ Hx Houts).
  destruct (stability_report_returns n o0 rest Hsame Hpos) as (mx & mv & ->).
  fold (mean_q elements) in m.
  rewrite (ravel_stacked _ _ Hsame). fold elements.
  assert (Hne : exists e es, elements = e :: es).
  { destruct (ravel_nonempty o0 (ndindex_nonempty _ Hpos)) as (e & es & He).
    unfold elements. cbn [map concat]. rewrite He. simpl. eauto. }
  destruct Hne as (e & es & He).
  eexists. split; [reflexivity|].
  cbn [dict_get String.eqb Ascii.eqb Bool.eqb].
  unfold np_std, np_mean, np_var. rewrite He. rewrite <- He.
  cbn [nf_map nf_nonzero nf_divide]. unfold np_divide.
  split; [reflexivity|].
  fold m. split.
  - intros Hz. apply Qeq_eq_bool in Hz. now rewrite Hz.
  - intros Hnz. destruct (Qeq_bool m 0) eqn:E.
    + apply Qeq_bool_eq in E. contradiction.
    + reflexivity.
Qed.

End Stability.

Lemma is_deterministic_iff_all_close_witness :
  exists d,
    fst (test_numerical_stability (host := Demo.host) Demo.tester 3 Demo.start)
      = Ok (PDict d) /\
    dict_get d "is_deterministic" = Some (PBool true).
Proof.
  edestruct (is_deterministic_iff_all_close (host := Demo.host) Demo.tester 3
               Demo.start)
    as (d & flag & Hrun & _ & Hflag & Hiff).
  - lia.
  - vm_compute. reflexivity.
  - vm_compute. reflexivity.
  - intros o [<-|[<-|[]]]; reflexivity.
  - repeat constructor.
  - exists d. rewrite Hrun. cbn [fst]. split; [reflexivity|].
    rewrite Hflag. do 2 f_equal. apply Hiff.
    intros o [<-|[<-|[]]] idx _; apply isclose_spec; unfold isclose;
      rewrite Qeq_bool_refl; apply orb_true_r.
Defined.

Lemma coefficient_of_variation_guarded_witness :
  exists d v,
    fst (test_numerical_stability (host := Demo.host) Demo.tester 3 Demo.start)
      = Ok (PDict d) /\
    dict_get d "coefficient_of_variation" = Some (PFloat (Finite v)).
Proof.
  edestruct (coefficient_of_variation_guarded (host := Demo.host) Demo.tester 3
               Demo.start)
    as (d & Hrun & _ & _ & Hcv).
  - vm_compute. reflexivity.
  - vm_compute. reflexivity.
  - intros o [<-|[<-|[]]]; reflexivity.
  - repeat constructor.
  - exists d. eexists. rewrite Hrun. cbn [fst]. split; [reflexivity|].
    apply Hcv. vm_compute. discriminate.
Defined.

(** The analysis on two hand-made runs: outputs that drift by [1e-3] are
    not deterministic, and outputs that are zero throughout have the
    coefficient of variation [0]. *)
Example drifting_outputs_are_not_deterministic :
  match stability_report (host := Demo.host) 2
          [ mk_ndarray [1%nat; 2%nat] Float32 (fun _ => 1 # 2);
            mk_ndarray [1%nat; 2%nat] Float32 (fun _ => 501 # 1000) ] with
  | Ok (PDict d) => dict_get d "is_deterministic"
  | _ => None
  end = Some (PBool false).
Proof. vm_compute. reflexivity. Qed.

Example zero_outputs_have_zero_variation :
  match stability_report (host := Demo.host) 2
          [ np_zeros [1%nat; 2%nat] Float32; np_zeros [1%nat; 2%nat] Float32 ] with
  | Ok (PDict d) =>
      (dict_get d "is_deterministic", dict_get d "coefficient_of_variation")
  | _ => (None, None)
  end = (Some (PBool true), Some (PInt 0)).
Proof. vm_compute. reflexivity. Qed.

(** * Further properties of the harness *)

(** ** More on reductions *)

Lemma max_q_lub (b x : Q) (l : list Q) :
  x <= b -> (forall y, In y l -> y <= b) -> max_q x l <= b.
Proof.
  intros Hx. induction l as [|z l IH]; intros H; simpl; [exact Hx|].
  apply Q.max_lub; [apply H; now left | apply IH; intros; apply H; now right].
Qed.

Lemma min_q_glb (a x : Q) (l : list Q) :
  a <= x -> (forall y, In y l -> a <= y) -> a <= min_q x l.
Proof.
  intros Hx. induction l as [|z l IH]; intros H; simpl; [exact Hx|].
  apply Q.min_glb; [apply H; now left | apply IH; intros; apply H; now right].
Qed.

(** The maximum is one of the elements. *)
Lemma max_q_In (x : Q) (l : list Q) : In (max_q x l) (x :: l).
Proof.
  induction l as [|z l IH]; simpl; [now left|].
  unfold Qmax, GenericMinMax.gmax.
  destruct (z ?= max_q x l); simpl in *; tauto.
Qed.

Lemma sum_q_const (c : Q) (l : list Q) :
  (forall y, In y l -> y == c) -> sum_q l == Qnat (length l) * c.
Proof.
  intros H. apply Qle_antisym.
  - apply sum_q_upper. intros y Hy. rewrite (H y Hy). apply Qle_refl.
  - apply sum_q_lower. intros y Hy. rewrite (H y Hy). apply Qle_refl.
Qed.

Lemma mean_q_const (c : Q) (l : list Q) :
  l <> [] -> (forall y, In y l -> y == c) -> mean_q l == c.
Proof.
  intros Hne H. apply Qle_antisym.
  - apply mean_q_upper; auto. intros y Hy. rewrite (H y Hy). apply Qle_refl.
  - apply mean_q_lower; auto. intros y Hy. rewrite (H y Hy). apply Qle_refl.
Qed.

Lemma square_nonneg (x : Q) : 0 <= x * x.
Proof.
  destruct (Qlt_le_dec x 0) as [Hneg|Hpos].
  - setoid_replace (x * x) with ((- x) * (- x)) by ring.
    apply Qmult_le_0_compat; lra.
  - now apply Qmult_le_0_compat.
Qed.

(** A variance is never negative. *)
Lemma var_q_nonneg (l : list Q) : l <> [] -> 0 <= var_q l.
Proof.
  intros Hne. unfold var_q. apply mean_q_lower.
  - destruct l; [congruence | discriminate].
  - intros y Hy. apply in_map_iff in Hy as (x & <- & _). apply square_nonneg.
Qed.

(** The variance of equal values is zero. *)
Lemma var_q_const (c : Q) (l : list Q) :
  l <> [] -> (forall y, In y l -> y == c) -> var_q l == 0.
Proof.
  intros Hne H. unfold var_q. apply mean_q_const.
  - destruct l; [congruence | discriminate].
  - intros y Hy. apply in_map_iff in Hy as (x & <- & Hx).
    rewrite (H x Hx), (mean_q_const c l Hne H). ring.
Qed.

Lemma sum_q_zero_nonneg (l : list Q) :
  (forall y, In y l -> 0 <= y) -> sum_q l == 0 -> forall y, In y l -> y == 0.
Proof.
  induction l as [|x l IH]; intros Hpos Hsum y Hy; [destruct Hy|].
  cbn [sum_q fold_right] in Hsum. fold (sum_q l) in Hsum.
  assert (0 <= x) by (apply Hpos; now left).
  assert (0 <= sum_q l).
  { pose proof (sum_q_lower 0 l) as Hl. rewrite Qmult_0_r in Hl.
    apply Hl. intros; apply Hpos; now right. }
  destruct Hy as [<-|Hy]; [lra|].
  apply IH; auto; [intros; apply Hpos; now right | lra].
Qed.

(** A zero variance forces every value onto the mean. *)
Lemma var_q_zero (l : list Q) :
  l <> [] -> var_q l == 0 -> forall y, In y l -> y == mean_q l.
Proof.
  intros Hne Hvar y Hy.
  set (m := mean_q l) in *.
  set (sq := map (fun x => (x - m) * (x - m)) l).
  assert (Hlen : 0 < Qnat (length sq)).
  { apply Qnat_pos. unfold sq. rewrite length_map.
    destruct l; [congruence | simpl; lia]. }
  assert (Hsum : sum_q sq == 0).
  { unfold var_q in Hvar. fold m sq in Hvar. unfold mean_q in Hvar.
    assert (E : sum_q sq == sum_q sq / Qnat (length sq) * Qnat (length sq))
      by (field; lra).
    rewrite E, Hvar. ring. }
  assert (Hsq : (y - m) * (y - m) == 0).
  { apply (sum_q_zero_nonneg sq); auto.
    - intros z Hz. apply in_map_iff in Hz as (x & <- & _). apply square_nonneg.
    - unfold sq. apply in_map_iff. eauto. }
  apply Qmult_integral in Hsq. destruct Hsq; lra.
Qed.

(** ** More on the stability checker *)

Lemma map_seq_nth {A B : Type} (f : A -> B) (l : list A) (d : A) :
  map (fun k => f (nth k l d)) (seq 0 (length l)) = map f l.
Proof.
  induction l as [|x l IH]; simpl; auto.
  f_equal. rewrite <- seq_shift, map_map. exact IH.
Qed.

Section StabilityMore.

Context {World : Type} {host : Host World}.

(** The per-element variances, flattened: one variance across the runs for
    each index of the output shape. *)
Lemma ravel_var_axis0_stacked (o0 : ndarray) (rest : list ndarray) :
  ravel (var_axis0 (stacked o0 rest)) =
  map (fun idx => var_q (across_runs (o0 :: rest) idx)) (ndindex (shape o0)).
Proof.
  unfold ravel. cbn [var_axis0 stacked shape item].
  apply map_ext. intros idx. f_equal.
  change (S (length rest)) with (length (o0 :: rest)).
  apply (map_seq_nth (fun o => item o idx)).
Qed.

(** The report of the analysis with its two variance entries spelled out. *)
Lemma stability_report_variances (n : nat) (o0 : ndarray) (rest : list ndarray) :
  (forall o, In o rest -> shape o = shape o0) ->
  Forall (lt 0) (shape o0) ->
  exists v vs d,
    map (fun idx => var_q (across_runs (o0 :: rest) idx)) (ndindex (shape o0))
      = v :: vs /\
    stability_report n (o0 :: rest) = Ok (PDict d) /\
    dict_get d "max_variance" = Some (PFloat (Finite (max_q v vs))) /\
    dict_get d "mean_variance" = Some (PFloat (Finite (mean_q (v :: vs)))) /\
    dict_get d "is_deterministic" =
      Some (PBool (allclose
                     (mk_ndarray (shape o0) (dtype o0)
                        (fun i => item (stacked o0 rest) (0%nat :: i)))
                     (drop_first (stacked o0 rest)) rtol atol)).
Proof.
  intros Hsame Hpos. unfold stability_report.
  rewrite (stack_same_shape _ _ Hsame). cbn [rbind].
  rewrite ravel_var_axis0_stacked.
  destruct (ndindex (shape o0)) as [|i0 idxs] eqn:E.
  { exfalso. now apply (ndindex_nonempty _ Hpos). }
  cbn [map np_max rbind first_row stacked shape dtype np_mean].
  do 3 eexists. split; [reflexivity|]. split; [reflexivity|].
  repeat split.
Qed.

Lemma across_runs_nonempty (o0 : ndarray) (rest : list ndarray) (idx : list nat) :
  across_runs (o0 :: rest) idx <> [].
Proof. discriminate. Qed.

(** X1.  Neither variance entry of the stability report is negative:
    [0 <= mean_variance] and [0 <= max_variance].  (No order between the
    two is stated: the mean is a rounded sum, and on equal variances it can
    come out one unit in the last place above the maximum.) *)
Theorem stability_variances_nonnegative (self : ModelTester) (n : nat)
  (w w0 w1 : World) (x o0 : ndarray) (rest : list ndarray) :
  sample_input self (random_seed 42 w) = (Ok x, w0) ->
  collect_m n (run_output self x) w0 = (Ok (o0 :: rest), w1) ->
  (forall o, In o rest -> shape o = shape o0) ->
  Forall (lt 0) (shape o0) ->
  exists d mean_variance max_variance,
    test_numerical_stability self n w = (Ok (PDict d), w1) /\
    dict_get d "mean_variance" = Some (PFloat (Finite mean_variance)) /\
    dict_get d "max_variance" = Some (PFloat (Finite max_variance)) /\
    0 <= mean_variance /\ 0 <= max_variance.
Proof.
  intros Hx Houts Hsame Hpos.
  rewrite (test_numerical_stability_report _ _ _ _ _ _ _ Hx Houts).
  destruct (stability_report_variances n o0 rest Hsame Hpos)
    as (v & vs & d & Hvars & -> & Hmax & Hmean & _).
  assert (Hnonneg : forall y, In y (v :: vs) -> 0 <= y).
  { intros y Hy. rewrite <- Hvars in Hy.
    apply in_map_iff in Hy as (idx & <- & _).
    apply var_q_nonneg, across_runs_nonempty. }
  exists d, (mean_q (v :: vs)), (max_q v vs).
  split; [reflexivity|]. split; [exact Hmean|]. split; [exact Hmax|].
  split.
  - apply mean_q_lower; [discriminate | exact Hnonneg].
  - apply Qle_trans with v; [apply Hnonneg; now left | apply max_q_ge_head].
Qed.

(** X2.  When every later output equals the first one at every index of
    the output shape, the report says [is_deterministic = True].  (The
    variance entries are not claimed to vanish: the mean across runs is a
    rounded sum and need not equal the repeated value.) *)
Theorem identical_outputs_are_deterministic (self : ModelTester) (n : nat)
  (w w0 w1 : World) (x o0 : ndarray) (rest : list ndarray) :
  sample_input self (random_seed 42 w) = (Ok x, w0) ->
  collect_m n (run_output self x) w0 = (Ok (o0 :: rest), w1) ->
  (forall o, In o rest -> shape o = shape o0) ->
  Forall (lt 0) (shape o0) ->
  (forall o, In o rest -> forall idx, Forall2 lt idx (shape o0) ->
     item o idx == item o0 idx) ->
  exists d,
    test_numerical_stability self n w = (Ok (PDict d), w1) /\
    dict_get d "is_deterministic" = Some (PBool true).
Proof.
  intros Hx Houts Hsame Hpos Hequal.
  rewrite (test_numerical_stability_report _ _ _ _ _ _ _ Hx Houts).
  destruct (stability_report_variances n o0 rest Hsame Hpos)
    as (v & vs & d & _ & -> & _ & _ & Hdet).
  exists d. split; [reflexivity|].
  rewrite Hdet. do 2 f_equal. apply allclose_first_rest.
  intros o Ho idx Hidx. apply isclose_spec. unfold isclose.
  rewrite (Qeq_eq_bool _ _ (Qeq_sym _ _ (Hequal o Ho idx Hidx))).
  apply orb_true_r.
Qed.

(** X3.  A reported [max_variance] of zero implies
    [is_deterministic = True]: with no variance at any element the outputs
    agree exactly. *)
Theorem zero_variance_is_deterministic (self : ModelTester) (n : nat)
  (w w0 w1 : World) (x o0 : ndarray) (rest : list ndarray) :
  sample_input self (random_seed 42 w) = (Ok x, w0) ->
  collect_m n (run_output self x) w0 = (Ok (o0 :: rest), w1) ->
  (forall o, In o rest -> shape o = shape o0) ->
  Forall (lt 0) (shape o0) ->
  exists d max_variance,
    test_numerical_stability self n w = (Ok (PDict d), w1) /\
    dict_get d "max_variance" = Some (PFloat (Finite max_variance)) /\
    (max_variance == 0 -> dict_get d "is_deterministic" = Some (PBool true)).
Proof.
  intros Hx Houts Hsame Hpos.
  rewrite (test_numerical_stability_report _ _ _ _ _ _ _ Hx Houts).
  destruct (stability_report_variances n o0 rest Hsame Hpos)
    as (v & vs & d & Hvars & -> & Hmax & _ & Hdet).
  exists d, (max_q v vs). split; [reflexivity|]. split; [exact Hmax|].
  intros Hz. rewrite Hdet. do 2 f_equal. apply allclose_first_rest.
  intros o Ho idx Hidx.
  assert (Hvar : var_q (across_runs (o0 :: rest) idx) == 0).
  { assert (Hin : In (var_q (across_runs (o0 :: rest) idx)) (v :: vs)).
    { rewrite <- Hvars. apply in_map_iff. exists idx.
      split; [reflexivity | now apply ndindex_In]. }
    apply Qle_antisym.
    - rewrite <- Hz. destruct Hin as [<-|Hin];
        [apply max_q_ge_head | now apply max_q_ge_In].
    - apply var_q_nonneg, across_runs_nonempty. }
  pose proof (var_q_zero _ (across_runs_nonempty o0 rest idx) Hvar) as Hall.
  assert (H0 : item o0 idx == mean_q (across_runs (o0 :: rest) idx))
    by (apply Hall; now left).
  assert (H1 : item o idx == mean_q (across_runs (o0 :: rest) idx)).
  { apply Hall. right. unfold across_runs. apply in_map_iff. eauto. }
  apply isclose_spec. unfold isclose.
  assert (E : item o0 idx == item o idx) by (rewrite H0, H1; reflexivity).
  rewrite (Qeq_eq_bool _ _ E). apply orb_true_r.
Qed.

(** X4.  With [num_tests = 0] the stability check does not return a
    report: indexing the empty collection of outputs raises [IndexError]. *)
Theorem stability_without_tests_raises (self : ModelTester) (w : World) :
  exists e w',
    test_numerical_stability self 0 w = (Raise e, w') /\
    exn_kind e = IndexError.
Proof.
  destruct (sample_input_returns self (random_seed 42 w)) as (x & w0 & Hx).
  do 2 eexists. split.
  - unfold test_numerical_stability, bind, effect, of_result. rewrite Hx.
    cbn [collect_m ret stability_report]. reflexivity.
  - reflexivity.
Qed.

End StabilityMore.

(** ** More on the benchmark engine *)

Lemma np_sort_In (x : Q) (l : list Q) : In x (np_sort l) -> In x l.
Proof.
  induction l as [|y l IH]; simpl; [tauto|].
  intros H. destruct (insert_sorted_In _ _ _ H) as [->|Hin]; auto.
Qed.

Lemma nth_np_sort_bounds (t : Q) (times : list Q) (i : nat) :
  (i < length (t :: times))%nat ->
  min_q t times <= nth i (np_sort (t :: times)) 0 /\
  nth i (np_sort (t :: times)) 0 <= max_q t times.
Proof.
  intros Hi.
  assert (Hin : In (nth i (np_sort (t :: times)) 0) (t :: times)).
  { apply np_sort_In, nth_In. now rewrite np_sort_length. }
  destruct Hin as [<-|Hin].
  - split; [apply min_q_le_head | apply max_q_ge_head].
  - split; [now apply min_q_le_In | now apply max_q_ge_In].
Qed.

(** A percentile lies between the minimum and the maximum. *)
Lemma percentile_q_bounds (t : Q) (times : list Q) (p : Q) :
  0 <= p -> p <= 100 ->
  min_q t times <= percentile_q (t :: times) p /\
  percentile_q (t :: times) p <= max_q t times.
Proof.
  intros H0 H100. unfold percentile_q.
  set (l := t :: times).
  pose proof (Qnat_nonneg (length l - 1)) as Hn.
  set (v := Qnat (length l - 1) * p / 100).
  assert (Hv0 : 0 <= v).
  { unfold v. apply Qle_shift_div_l; [lra|].
    assert (0 <= Qnat (length l - 1) * p) by (now apply Qmult_le_0_compat). lra. }
  assert (Hvn : v <= Qnat (length (np_sort l) - 1)).
  { rewrite np_sort_length. unfold v. apply Qle_shift_div_r; [lra|].
    assert (p * Qnat (length l - 1) <= 100 * Qnat (length l - 1))
      by (now apply Qmult_le_compat_r). lra. }
  assert (Hne : np_sort l <> []).
  { intros E. apply (f_equal (@length Q)) in E.
    rewrite np_sort_length in E. discriminate. }
  destruct (interpolate_bounds (np_sort l) v (np_sort_sorted l) Hv0 Hvn Hne)
    as [Hlo Hhi].
  destruct (floor_index_bounds _ _ Hv0 Hvn) as [Hi _].
  rewrite np_sort_length in Hi, Hhi.
  assert (Hlen : (0 < length l)%nat) by (simpl; lia).
  split.
  - eapply Qle_trans; [|exact Hlo]. apply nth_np_sort_bounds. fold l. lia.
  - eapply Qle_trans; [exact Hhi|]. apply nth_np_sort_bounds. fold l. lia.
Qed.

(** So does the median. *)
Lemma median_q_bounds (t : Q) (times : list Q) :
  min_q t times <= median_q (t :: times) /\
  median_q (t :: times) <= max_q t times.
Proof.
  unfold median_q. set (l := t :: times).
  assert (Hlen : (0 < length l)%nat) by (simpl; lia).
  assert (Hhalf : (length l / 2 < length l)%nat)
    by (apply Nat.div_lt; lia).
  destruct (nth_np_sort_bounds t times (length l / 2)) as [Ha Hb];
    [fold l; lia|].
  destruct (nth_np_sort_bounds t times (length l / 2 - 1)) as [Hc Hd];
    [fold l; lia|].
  fold l in Ha, Hb, Hc, Hd.
  destruct (Nat.even (length l)).
  - split; [apply Qle_shift_div_l | apply Qle_shift_div_r]; lra.
  - split; assumption.
Qed.

Section BenchmarkMore.

Context {World : Type} {host : Host World}.

(** X5.  In the statistics of a non-empty run the median and the two
    percentiles lie between the minimum and the maximum. *)
Theorem order_statistics_within_range (self : ModelTester) (n warmup : nat)
  (w w0 w1 w2 : World) (x : ndarray) (times : list Q) :
  sample_input self w = (Ok x, w0) ->
  repeat_m warmup (run_once self x) w0 = (Ok tt, w1) ->
  collect_m n (timed_run self x) w1 = (Ok times, w2) ->
  times <> [] ->
  exists d mn mx median p95 p99,
    test_inference_speed self n warmup w = (Ok (PDict d), w2) /\
    dict_get d "min_time_ms" = Some (PFloat (Finite mn)) /\
    dict_get d "max_time_ms" = Some (PFloat (Finite mx)) /\
    dict_get d "median_time_ms" = Some (PFloat (Finite median)) /\
    dict_get d "percentile_95_ms" = Some (PFloat (Finite p95)) /\
    dict_get d "percentile_99_ms" = Some (PFloat (Finite p99)) /\
    mn <= median /\ median <= mx /\
    mn <= p95 /\ p95 <= mx /\ mn <= p99 /\ p99 <= mx.
Proof.
  intros Hx Hwarm Htimes Hne.
  rewrite (test_inference_speed_stats _ _ _ _ _ _ _ _ _ Hx Hwarm Htimes).
  destruct times as [|t times]; [congruence|].
  unfold latency_stats.
  cbn [np_min np_max rbind np_mean np_median np_percentile ms nf_map].
  eexists. exists (min_q t times * 1000), (max_q t times * 1000),
    (median_q (t :: times) * 1000), (percentile_q (t :: times) 95 * 1000),
    (percentile_q (t :: times) 99 * 1000).
  split; [reflexivity|].
  repeat (split; [reflexivity|]).
  destruct (median_q_bounds t times).
  destruct (percentile_q_bounds t times 95); [lra | lra |].
  destruct (percentile_q_bounds t times 99); [lra | lra |].
  repeat split; lra.
Qed.

(** X6.  With [num_iterations = 0] the speed test does not return: once the
    warm-up has run, taking the minimum of no timings raises [ValueError]. *)
Theorem speed_without_iterations_raises (self : ModelTester) (warmup : nat)
  (w w0 w1 : World) (x : ndarray) :
  sample_input self w = (Ok x, w0) ->
  repeat_m warmup (run_once self x) w0 = (Ok tt, w1) ->
  exists e,
    test_inference_speed self 0 warmup w = (Raise e, w1) /\
    exn_kind e = ValueError.
Proof.
  intros Hx Hwarm. eexists. split.
  - unfold test_inference_speed, bind, of_result. rewrite Hx, Hwarm.
    cbn [collect_m ret latency_stats np_min rbind]. reflexivity.
  - reflexivity.
Qed.

Lemma collect_m_Forall {A : Type} (P : A -> Prop) (body : M World A) :
  (forall w a w', body w = (Ok a, w') -> P a) ->
  forall n w l w', collect_m n body w = (Ok l, w') -> Forall P l.
Proof.
  intros Hbody. induction n as [|n IH]; simpl; intros w l w' H.
  - unfold ret in H. inversion H. constructor.
  - unfold bind in H. destruct (body w) as [[a|e] w1] eqn:Ea; [|discriminate].
    fold (@bind World (list A) (list A)) in H. unfold bind, ret in H.
    destruct (collect_m n body w1) as [[l0|e] w2] eqn:E; [|discriminate].
    inversion H; subst. constructor; eauto.
Qed.

(** Under a monotonic clock one timed inference never takes negative
    time. *)
Lemma timed_run_nonneg (now : World -> Q) (self : ModelTester) (x : ndarray)
  (w w' : World) (t : Q) :
  monotonic_clock now ->
  timed_run self x w = (Ok t, w') -> 0 <= t.
Proof.
  intros (Hclock & Hset & Hinvoke) H.
  unfold timed_run, run_once, bind, lift, ret in H.
  pose proof (Hclock w) as [_ Hstart].
  destruct (perf_counter w) as [a wa]. cbn [fst snd] in Hstart.
  pose proof (Hset (td_index (input_details_0 self)) x wa) as Hs.
  destruct (set_tensor _ x wa) as [[[]|e] wb]; [|discriminate].
  pose proof (Hinvoke wb) as Hi.
  destruct (invoke wb) as [[[]|e] wc]; [|discriminate].
  pose proof (Hclock wc) as [Hend _].
  destruct (perf_counter wc) as [b wd]. cbn [fst snd] in *.
  inversion H; subst. lra.
Qed.

(** X7.  When the clock is monotonic, no timing is negative, so the
    reported minimum (and with it every other latency) is non-negative and
    a finite throughput is positive. *)
Theorem latencies_are_nonnegative (now : World -> Q) (self : ModelTester)
  (n warmup : nat) (w w0 w1 w2 : World) (x : ndarray) (times : list Q) :
  monotonic_clock now ->
  sample_input self w = (Ok x, w0) ->
  repeat_m warmup (run_once self x) w0 = (Ok tt, w1) ->
  collect_m n (timed_run self x) w1 = (Ok times, w2) ->
  times <> [] ->
  exists d mn fps,
    test_inference_speed self n warmup w = (Ok (PDict d), w2) /\
    dict_get d "min_time_ms" = Some (PFloat (Finite mn)) /\
    dict_get d "fps" = Some (PFloat fps) /\
    Forall (Qle 0) times /\
    0 <= mn /\
    (forall f, fps = Finite f -> 0 < f).
Proof.
  intros Hclock Hx Hwarm Htimes Hne.
  rewrite (test_inference_speed_stats _ _ _ _ _ _ _ _ _ Hx Hwarm Htimes).
  assert (Hpos : Forall (Qle 0) times).
  { eapply collect_m_Forall; [|exact Htimes].
    intros wa t wb Ht. exact (timed_run_nonneg now self x wa wb t Hclock Ht). }
  destruct times as [|t times]; [congruence|].
  unfold latency_stats. cbn [np_min np_max rbind np_mean ms nf_map].
  eexists. exists (min_q t times * 1000). eexists.
  split; [reflexivity|]. split; [reflexivity|]. split; [reflexivity|].
  split; [exact Hpos|].
  rewrite Forall_forall in Hpos.
  assert (Hmin : 0 <= min_q t times).
  { apply min_q_glb; [apply Hpos; now left | intros; apply Hpos; now right]. }
  split; [lra|].
  intros f Hf. unfold nf_divide, np_divide in Hf.
  destruct (Qeq_bool (mean_q (t :: times)) 0) eqn:E; [discriminate|].
  apply Qeq_bool_neq in E. inversion Hf; subst.
  assert (Hmean : 0 <= mean_q (t :: times))
    by (apply mean_q_lower; [discriminate | exact Hpos]).
  apply Qlt_shift_div_l; lra.
Qed.

End BenchmarkMore.

Lemma demo_clock_is_monotonic : monotonic_clock (host := Demo.host) Demo.now.
Proof.
  unfold monotonic_clock, Demo.now. repeat split; intros; simpl.
  - apply Qle_refl.
  - rewrite <- Zle_Qle. lia.
  - apply Qle_refl.
  - destruct (Qeq_bool (Demo.loaded w) 1); simpl; apply Qle_refl.
Qed.

Lemma order_statistics_within_range_witness :
  exists d mn mx median p95 p99,
    fst (test_inference_speed (host := Demo.host) Demo.tester 3 1 Demo.start)
      = Ok (PDict d) /\
    dict_get d "min_time_ms" = Some (PFloat (Finite mn)) /\
    dict_get d "max_time_ms" = Some (PFloat (Finite mx)) /\
    dict_get d "median_time_ms" = Some (PFloat (Finite median)) /\
    dict_get d "percentile_95_ms" = Some (PFloat (Finite p95)) /\
    dict_get d "percentile_99_ms" = Some (PFloat (Finite p99)) /\
    mn <= median /\ median <= mx /\ mn <= p95 /\ p99 <= mx.
Proof.
  edestruct (order_statistics_within_range (host := Demo.host) Demo.tester 3 1
               Demo.start)
    as (d & mn & mx & median & p95 & p99 & Hrun & H).
  - vm_compute. reflexivity.
  - vm_compute. reflexivity.
  - vm_compute. reflexivity.
  - discriminate.
  - exists d, mn, mx, median, p95, p99. rewrite Hrun. cbn [fst]. tauto.
Defined.

Lemma speed_without_iterations_raises_witness :
  exists e,
    fst (test_inference_speed (host := Demo.host) Demo.tester 0 2 Demo.start)
      = Raise e /\
    exn_kind e = ValueError.
Proof.
  edestruct (speed_without_iterations_raises (host := Demo.host) Demo.tester 2
               Demo.start) as (e & Hrun & Hkind).
  - vm_compute. reflexivity.
  - vm_compute. reflexivity.
  - exists e. rewrite Hrun. cbn [fst]. auto.
Defined.

Lemma latencies_are_nonnegative_witness :
  exists d mn,
    fst (test_inference_speed (host := Demo.host) Demo.tester 3 1 Demo.start)
      = Ok (PDict d) /\
    dict_get d "min_time_ms" = Some (PFloat (Finite mn)) /\
    0 <= mn.
Proof.
  edestruct (latencies_are_nonnegative (host := Demo.host) Demo.now Demo.tester
               3 1 Demo.start)
    as (d & mn & fps & Hrun & Hmn & _ & _ & Hpos & _).
  - exact demo_clock_is_monotonic.
  - vm_compute. reflexivity.
  - vm_compute. reflexivity.
  - vm_compute. reflexivity.
  - discriminate.
  - exists d, mn. rewrite Hrun. cbn [fst]. auto.
Defined.

Lemma stability_variances_nonnegative_witness :
  exists d mean_variance max_variance,
    fst (test_numerical_stability (host := Demo.host) Demo.tester 3 Demo.start)
      = Ok (PDict d) /\
    dict_get d "mean_variance" = Some (PFloat (Finite mean_variance)) /\
    dict_get d "max_variance" = Some (PFloat (Finite max_variance)) /\
    0 <= mean_variance /\ 0 <= max_variance.
Proof.
  edestruct (stability_variances_nonnegative (host := Demo.host) Demo.tester 3
               Demo.start)
    as (d & mv & mx & Hrun & H).
  - vm_compute. reflexivity.
  - vm_compute. reflexivity.
  - intros o [<-|[<-|[]]]; reflexivity.
  - repeat constructor.
  - exists d, mv, mx. rewrite Hrun. cbn [fst]. tauto.
Defined.

Lemma identical_outputs_are_deterministic_witness :
  exists d,
    fst (test_numerical_stability (host := Demo.host) Demo.tester 3 Demo.start)
      = Ok (PDict d) /\
    dict_get d "is_deterministic" = Some (PBool true).
Proof.
  edestruct (identical_outputs_are_deterministic (host := Demo.host) Demo.tester
               3 Demo.start)
    as (d & Hrun & Hdet).
  - vm_compute. reflexivity.
  - vm_compute. reflexivity.
  - intros o [<-|[<-|[]]]; reflexivity.
  - repeat constructor.
  - intros o [<-|[<-|[]]] idx _; reflexivity.
  - exists d. rewrite Hrun. cbn [fst]. auto.
Defined.

Lemma zero_variance_is_deterministic_witness :
  exists d,
    fst (test_numerical_stability (host := Demo.host) Demo.tester 3 Demo.start)
      = Ok (PDict d) /\
    dict_get d "is_deterministic" = Some (PBool true).
Proof.
  edestruct (zero_variance_is_deterministic (host := Demo.host) Demo.tester 3
               Demo.start)
    as (d & mx & Hrun & Hmax & Hdet).
  - vm_compute. reflexivity.
  - vm_compute. reflexivity.
  - intros o [<-|[<-|[]]]; reflexivity.
  - repeat constructor.
  - exists d. rewrite Hrun. cbn [fst]. split; [reflexivity|].
    apply Hdet.
    eassert (Hc : test_numerical_stability (host := Demo.host) Demo.tester 3
                    Demo.start = (Ok (PDict _), _)).
    { vm_compute. reflexivity. }
    rewrite Hc in Hrun. injection Hrun as Hd. subst d.
    vm_compute in Hmax. injection Hmax as <-. reflexivity.
Defined.

(** ** Memory profiler *)

Section Memory.

Context {World : Type} {host : Host World}.



End Memory.


(** ** More on the variation prober *)

(** The scan behind [np.argmax]: the index found is within the sequence,
    holds a largest value, and no earlier index holds one as large. *)
Lemma argmax_from_spec (l : list Q) :
  forall (pre : list Q) (best : Q) (besti : nat),
    (besti < length pre)%nat ->
    nth besti pre 0 = best ->
    (forall y, In y pre -> y <= best) ->
    (forall j, (j < besti)%nat -> nth j pre 0 < best) ->
    let k := argmax_from best besti (length pre) l in
    (k < length (pre ++ l))%nat /\
    (forall y, In y (pre ++ l) -> y <= nth k (pre ++ l) 0) /\
    (forall j, (j < k)%nat -> nth j (pre ++ l) 0 < nth k (pre ++ l) 0).
Proof.
  induction l as [|y l IH]; intros pre best besti Hlt Hnth Hmax Hfirst; cbn zeta.
  - simpl. rewrite app_nil_r. rewrite Hnth. auto.
  - cbn [argmax_from].
    replace (pre ++ y :: l) with ((pre ++ [y]) ++ l) by (now rewrite <- app_assoc).
    replace (S (length pre)) with (length (pre ++ [y]))
      by (rewrite length_app; simpl; lia).
    destruct (Qle_bool y best) eqn:E.
    + apply Qle_bool_iff in E. apply IH.
      * rewrite length_app. simpl. lia.
      * now rewrite app_nth1.
      * intros z Hz. apply in_app_or in Hz as [Hz|[<-|[]]]; auto.
      * intros j Hj. rewrite app_nth1 by lia. auto.
    + assert (Hgt : best < y).
      { destruct (Qlt_le_dec best y) as [H|H]; [exact H|].
        apply Qle_bool_iff in H. congruence. }
      apply (IH (pre ++ [y]) y (length pre)).
      * rewrite length_app. simpl. lia.
      * rewrite app_nth2 by lia. now rewrite Nat.sub_diag.
      * intros z Hz. apply in_app_or in Hz as [Hz|[<-|[]]];
          [apply Qlt_le_weak, Qle_lt_trans with best; auto | apply Qle_refl].
      * intros j Hj. rewrite app_nth1 by lia.
        apply Qle_lt_trans with best; [apply Hmax, nth_In; lia | exact Hgt].
Qed.

Lemma np_argmax_spec (x : Q) (l : list Q) (k : nat) :
  np_argmax (x :: l) = Ok k ->
  (k < length (x :: l))%nat /\
  (forall y, In y (x :: l) -> y <= nth k (x :: l) 0) /\
  (forall j, (j < k)%nat -> nth j (x :: l) 0 < nth k (x :: l) 0).
Proof.
  intros H. simpl in H. inversion H as [Hk].
  apply (argmax_from_spec l [x] x 0%nat); simpl; auto; try lia.
  intros y [<-|[]]. apply Qle_refl.
Qed.

Section VariationsMore.

Context {World : Type} {host : Host World}.

(** The entry recorded for a pattern whose inference returned an output is
    the entry computed from that output. *)
Lemma recorded_entry (self : ModelTester) (w w0 w1 w2 w3 : World)
  (pats before after : list (string * ndarray)) (name : string) (x : ndarray)
  (r1 : pydict) (output : ndarray) (entry : pyval) :
  test_patterns self w = (Ok pats, w0) ->
  pats = before ++ (name, x) :: after ->
  probe_patterns self before [] w0 = (Ok r1, w1) ->
  run_once self x w1 = (Ok tt, w2) ->
  get_tensor (td_index (output_details_0 self)) w2 = (Ok output, w3) ->
  variation_entry output = Ok entry ->
  exists d w',
    test_input_variations self w = (Ok (PDict d), w') /\
    dict_get d name = Some entry.
Proof.
  intros Hpats Hsplit Hbefore Hrun Hget Hentry.
  destruct (test_patterns_returns self w) as (pats' & w0' & Hpats' & Hkeys).
  rewrite Hpats in Hpats'. inversion Hpats'; subst pats' w0'. clear Hpats'.
  destruct (probe_patterns_returns self pats [] w0) as (d & w' & Hloop).
  exists d, w'. split.
  - unfold test_input_variations, bind, ret. now rewrite Hpats, Hloop.
  - subst pats.
    apply (probe_patterns_entry self before after name x w0 w1 w3 w' r1 d); auto.
    + rewrite Hkeys. apply pattern_names_NoDup.
    + unfold probe_pattern, try_except, infer_pattern, bind, of_result.
      now rewrite Hrun, Hget, Hentry.
Qed.

(** The success entry of an output of rank two or more with positive
    dimensions. *)
Lemma variation_entry_batched (output : ndarray) (b d1 : nat) (s' : list nat) :
  shape output = S b :: d1 :: s' ->
  Forall (lt 0) (d1 :: s') ->
  exists o0 os r0 rs k,
    ravel output = o0 :: os /\
    map (fun i => item output (0%nat :: i)) (ndindex (d1 :: s')) = r0 :: rs /\
    np_argmax (r0 :: rs) = Ok k /\
    variation_entry output =
    Ok (PDict
      [ ("success", PBool true);
        ("output_shape", PShape (S b :: d1 :: s'));
        ("output_mean", PFloat (Finite (mean_q (o0 :: os))));
        ("output_std", PFloat (np_std (o0 :: os)));
        ("output_min", PFloat (Finite (min_q o0 os)));
        ("output_max", PFloat (Finite (max_q o0 os)));
        ("top_class", PInt (Z.of_nat k));
        ("top_confidence", PFloat (Finite (max_q r0 rs))) ]).
Proof.
  intros Hs Hpos.
  assert (Hall : Forall (lt 0) (shape output)).
  { rewrite Hs. constructor; [lia | exact Hpos]. }
  destruct (ravel_nonempty output (ndindex_nonempty _ Hall)) as (o0 & os & Hrav).
  destruct (map (fun i => item output (0%nat :: i)) (ndindex (d1 :: s')))
    as [|r0 rs] eqn:Hrow.
  { exfalso. apply map_eq_nil in Hrow. now apply (ndindex_nonempty _ Hpos). }
  exists o0, os, r0, rs. eexists.
  split; [exact Hrav|]. split; [reflexivity|].
  unfold variation_entry. rewrite Hrav, Hs.
  cbn [np_min np_max rbind length Nat.ltb Nat.leb first_row np_mean].
  unfold first_row. rewrite Hs. cbn [rbind]. unfold ravel at 1 2.
  cbn [shape item]. rewrite Hrow. cbn [np_argmax np_max rbind].
  split; reflexivity.
Qed.

(** X9.  When a pattern's inference returns an output of rank two or more
    (positive dimensions), [top_class] is the first index of the largest
    value of the first batch row, [top_confidence] is that value, and it
    does not exceed [output_max]. *)
Theorem top_class_is_the_first_maximum (self : ModelTester) (w w0 w1 w2 w3 : World)
  (pats before after : list (string * ndarray)) (name : string) (x : ndarray)
  (r1 : pydict) (output : ndarray) (b d1 : nat) (s' : list nat) :
  test_patterns self w = (Ok pats, w0) ->
  pats = before ++ (name, x) :: after ->
  probe_patterns self before [] w0 = (Ok r1, w1) ->
  run_once self x w1 = (Ok tt, w2) ->
  get_tensor (td_index (output_details_0 self)) w2 = (Ok output, w3) ->
  shape output = S b :: d1 :: s' ->
  Forall (lt 0) (d1 :: s') ->
  exists d w' entry k c mx,
    test_input_variations self w = (Ok (PDict d), w') /\
    dict_get d name = Some (PDict entry) /\
    dict_get entry "top_class" = Some (PInt (Z.of_nat k)) /\
    dict_get entry "top_confidence" = Some (PFloat (Finite c)) /\
    dict_get entry "output_max" = Some (PFloat (Finite mx)) /\
    let row := map (fun i => item output (0%nat :: i)) (ndindex (d1 :: s')) in
    (k < length row)%nat /\
    nth k row 0 == c /\
    (forall y, In y row -> y <= c) /\
    (forall j, (j < k)%nat -> nth j row 0 < c) /\
    c <= mx.
Proof.
  intros Hpats Hsplit Hbefore Hrun Hget Hs Hpos.
  destruct (variation_entry_batched output b d1 s' Hs Hpos)
    as (o0 & os & r0 & rs & k & Hrav & Hrow & Hk & Hentry).
  destruct (recorded_entry self w w0 w1 w2 w3 pats before after name x r1 output
              _ Hpats Hsplit Hbefore Hrun Hget Hentry) as (d & w' & Hd & Hname).
  apply np_argmax_spec in Hk as (Hlt & Hmaxk & Hfirst).
  assert (Hc : nth k (r0 :: rs) 0 == max_q r0 rs).
  { apply Qle_antisym.
    - assert (Hin : In (nth k (r0 :: rs) 0) (r0 :: rs)) by (now apply nth_In).
      destruct Hin as [<-|Hin]; [apply max_q_ge_head | now apply max_q_ge_In].
    - apply Hmaxk, max_q_In. }
  exists d, w'. eexists. exists k, (max_q r0 rs), (max_q o0 os).
  split; [exact Hd|]. split; [exact Hname|].
  split; [reflexivity|]. split; [reflexivity|]. split; [reflexivity|].
  cbn zeta. rewrite Hrow.
  split; [exact Hlt|]. split; [exact Hc|]. split; [|split].
  - intros y Hy. rewrite <- Hc. now apply Hmaxk.
  - intros j Hj. rewrite <- Hc. now apply Hfirst.
  - assert (Hin : In (max_q r0 rs) (ravel output)).
    { pose proof (max_q_In r0 rs) as Hm. rewrite <- Hrow in Hm.
      apply in_map_iff in Hm as (i & <- & Hi).
      unfold ravel. apply in_map, ndindex_In. rewrite Hs.
      constructor; [lia | now apply ndindex_In]. }
    rewrite Hrav in Hin.
    destruct Hin as [<-|Hin]; [apply max_q_ge_head | now apply max_q_ge_In].
Qed.

(** The success entry exists for every output with positive dimensions, and
    its minimum is at most its maximum. *)
Lemma variation_entry_extremes (output : ndarray) :
  Forall (lt 0) (shape output) ->
  exists fields mn mx,
    variation_entry output = Ok (PDict fields) /\
    dict_get fields "success" = Some (PBool true) /\
    dict_get fields "output_min" = Some (PFloat (Finite mn)) /\
    dict_get fields "output_max" = Some (PFloat (Finite mx)) /\
    mn <= mx.
Proof.
  intros Hpos.
  destruct (shape output) as [|d0 [|d1 s']] eqn:Hs.
  - destruct (ravel_nonempty output) as (o0 & os & Hrav).
    { rewrite Hs. discriminate. }
    unfold variation_entry. rewrite Hrav, Hs.
    cbn [np_min np_max rbind length Nat.ltb Nat.leb np_mean].
    do 3 eexists. split; [reflexivity|]. repeat (split; [reflexivity|]).
    apply Qle_trans with o0; [apply min_q_le_head | apply max_q_ge_head].
  - destruct (ravel_nonempty output) as (o0 & os & Hrav).
    { rewrite Hs. now apply ndindex_nonempty. }
    unfold variation_entry. rewrite Hrav, Hs.
    cbn [np_min np_max rbind length Nat.ltb Nat.leb np_mean].
    do 3 eexists. split; [reflexivity|]. repeat (split; [reflexivity|]).
    apply Qle_trans with o0; [apply min_q_le_head | apply max_q_ge_head].
  - inversion Hpos as [|? ? Hd0 Hrest]; subst.
    destruct d0 as [|b]; [lia|].
    destruct (variation_entry_batched output b d1 s' Hs Hrest)
      as (o0 & os & r0 & rs & k & Hrav & Hrow & Hk & ->).
    do 3 eexists. split; [reflexivity|]. repeat (split; [reflexivity|]).
    apply Qle_trans with o0; [apply min_q_le_head | apply max_q_ge_head].
Qed.

(** X10.  When a pattern's inference returns an output with positive
    dimensions, of any rank, its entry is a success and its extremes are
    ordered: [output_min <= output_max].  (The mean entry is a rounded sum
    and is not claimed to lie between them.) *)
Theorem success_entry_has_ordered_extremes (self : ModelTester)
  (w w0 w1 w2 w3 : World)
  (pats before after : list (string * ndarray)) (name : string) (x : ndarray)
  (r1 : pydict) (output : ndarray) :
  test_patterns self w = (Ok pats, w0) ->
  pats = before ++ (name, x) :: after ->
  probe_patterns self before [] w0 = (Ok r1, w1) ->
  run_once self x w1 = (Ok tt, w2) ->
  get_tensor (td_index (output_details_0 self)) w2 = (Ok output, w3) ->
  Forall (lt 0) (shape output) ->
  exists d w' entry mn mx,
    test_input_variations self w = (Ok (PDict d), w') /\
    dict_get d name = Some (PDict entry) /\
    dict_get entry "success" = Some (PBool true) /\
    dict_get entry "output_min" = Some (PFloat (Finite mn)) /\
    dict_get entry "output_max" = Some (PFloat (Finite mx)) /\
    mn <= mx.
Proof.
  intros Hpats Hsplit Hbefore Hrun Hget Hpos.
  destruct (variation_entry_extremes output Hpos)
    as (fields & mn & mx & Hentry & Hrest).
  destruct (recorded_entry self w w0 w1 w2 w3 pats before after name x r1 output
              _ Hpats Hsplit Hbefore Hrun Hget Hentry) as (d & w' & Hd & Hname).
  exists d, w', fields, mn, mx. tauto.
Qed.

End VariationsMore.

Lemma top_class_is_the_first_maximum_witness :
  exists d entry k c,
    fst (test_input_variations (host := Demo.host) Demo.tester Demo.start)
      = Ok (PDict d) /\
    dict_get d "zeros" = Some (PDict entry) /\
    dict_get entry "top_class" = Some (PInt (Z.of_nat k)) /\
    dict_get entry "top_confidence" = Some (PFloat (Finite c)) /\
    nth k [1 # 10; 7 # 10; 1 # 10] 0 == c.
Proof.
  edestruct (top_class_is_the_first_maximum (host := Demo.host) Demo.tester
               Demo.start) with (name := "zeros")
    (before := @nil (string * ndarray)) (b := 0%nat) (d1 := 3%nat) (s' := @nil nat)
    as (d & w' & entry & k & c & mx & Hrun & Hentry & Hk & Hc & _ & _ & Hnth & _).
  - reflexivity.
  - reflexivity.
  - reflexivity.
  - reflexivity.
  - reflexivity.
  - reflexivity.
  - repeat constructor.
  - exists d, entry, k, c. rewrite Hrun. cbn [fst]. auto.
Defined.

Lemma success_entry_has_ordered_extremes_witness :
  exists d entry mn mx,
    fst (test_input_variations (host := Demo.host) Demo.tester Demo.start)
      = Ok (PDict d) /\
    dict_get d "zeros" = Some (PDict entry) /\
    dict_get entry "output_min" = Some (PFloat (Finite mn)) /\
    dict_get entry "output_max" = Some (PFloat (Finite mx)) /\
    mn <= mx.
Proof.
  edestruct (success_entry_has_ordered_extremes (host := Demo.host) Demo.tester
               Demo.start) with (name := "zeros")
    (before := @nil (string * ndarray))
    as (d & w' & entry & mn & mx & Hrun & Hentry & _ & H).
  - reflexivity.
  - reflexivity.
  - reflexivity.
  - reflexivity.
  - reflexivity.
  - repeat constructor.
  - exists d, entry, mn, mx. rewrite Hrun. cbn [fst]. tauto.
Defined.

Section Entries.

Context {World : Type} {host : Host World}.

Lemma variation_entry_well_formed (output : ndarray) (entry : pyval) :
  variation_entry output = Ok entry -> well_formed_entry entry.
Proof.
  unfold variation_entry, rbind. intros H.
  destruct (np_min (ravel output)); [|discriminate].
  destruct (np_max (ravel output)); [|discriminate].
  destruct (1 <? length (shape output))%nat.
  - destruct (first_row output) as [row|]; [|discriminate].
    destruct (np_argmax (ravel row)); [|discriminate].
    destruct (np_max (ravel row)); [|discriminate].
    inversion H. eexists. split; [reflexivity|]. left. split; reflexivity.
  - inversion H. eexists. split; [reflexivity|]. left. split; reflexivity.
Qed.

Lemma probe_pattern_well_formed (self : ModelTester) (x : ndarray)
  (w w' : World) (entry : pyval) :
  probe_pattern self x w = (Ok entry, w') -> well_formed_entry entry.
Proof.
  unfold probe_pattern, try_except, infer_pattern, bind, of_result, ret.
  destruct (run_once self x w) as [[[]|e] w1].
  - destruct (get_tensor _ w1) as [[output|e] w2].
    + destruct (variation_entry output) as [v|e] eqn:E; intros H; inversion H; subst.
      * now apply variation_entry_well_formed in E.
      * eexists. split; [reflexivity|]. right. eauto.
    + intros H; inversion H. eexists. split; [reflexivity|]. right. eauto.
  - intros H; inversion H. eexists. split; [reflexivity|]. right. eauto.
Qed.

Lemma dict_get_set_cases {A : Type} (d : list (string * A)) (k k' : string)
  (v v' : A) :
  dict_get (dict_set d k v) k' = Some v' ->
  v' = v \/ dict_get d k' = Some v'.
Proof.
  destruct (string_dec k k') as [<-|Hne].
  - rewrite dict_get_set_same. intros H. inversion H. now left.
  - rewrite dict_get_set_other by exact Hne. now right.
Qed.

Lemma probe_patterns_well_formed (self : ModelTester)
  (pats : list (string * ndarray)) :
  forall results w d w',
    (forall k v, dict_get results k = Some v -> well_formed_entry v) ->
    probe_patterns self pats results w = (Ok d, w') ->
    forall k v, dict_get d k = Some v -> well_formed_entry v.
Proof.
  induction pats as [|[name x] pats IH]; intros results w d w' Hres H; simpl in H.
  - unfold ret in H. inversion H; subst. exact Hres.
  - unfold bind in H.
    destruct (probe_pattern self x w) as [[entry|e] w2] eqn:E; [|discriminate].
    apply (IH _ _ _ _) with (2 := H).
    intros k v Hk. apply dict_get_set_cases in Hk as [->|Hk].
    + eapply probe_pattern_well_formed; eauto.
    + eauto.
Qed.

(** X11.  For a model whose input tensor has at least one dimension, the
    variation prober never raises.  In every world it returns a mapping whose
    keys are the five pattern names in the order of the pattern dictionary,
    and each entry is either a success with the eight documented fields or
    [success = False] with an error message.  (With an input of no dimension
    the pattern dictionary itself cannot be built, see [np_random_rand].) *)
Theorem prober_returns_five_entries (self : ModelTester) (w : World) :
  td_shape (input_details_0 self) <> [] ->
  exists d w',
    test_input_variations self w = (Ok (PDict d), w') /\
    dict_keys d = ["zeros"; "ones"; "random_uniform"; "random_normal"; "max_values"] /\
    forall name entry, dict_get d name = Some entry -> well_formed_entry entry.
Proof.
  intros _.
  destruct (test_patterns_returns self w) as (pats & w0 & Hpats & Hkeys).
  destruct (probe_patterns_returns self pats [] w0) as (d & w' & Hloop).
  exists d, w'. split; [|split].
  - unfold test_input_variations, bind, ret. now rewrite Hpats, Hloop.
  - rewrite (probe_patterns_keys _ _ _ _ _ _ Hloop); simpl; rewrite Hkeys;
      [reflexivity | apply pattern_names_NoDup].
  - apply (probe_patterns_well_formed self pats [] w0 d w'); [|exact Hloop].
    intros k v Hk. discriminate Hk.
Qed.

Lemma cast_unit_interval (dt : Dtype) (q : Q) :
  0 <= q -> q <= 1 -> 0 <= cast dt q /\ cast dt q <= 1.
Proof.
  intros H0 H1. destruct dt; [auto | auto |].
  destruct q as [num den]. unfold Qle in H0, H1. simpl in H0, H1.
  cbn [cast Qnum Qden].
  assert (Hq : (0 <= Z.quot num (Z.pos den) <= 1)%Z).
  { rewrite Z.quot_div_nonneg by lia. split.
    - apply Z.div_pos; lia.
    - apply Z.div_le_upper_bound; lia. }
  rewrite Z.mod_small by lia.
  split; [change 0 with (inject_Z 0) | change 1 with (inject_Z 1)];
    rewrite <- Zle_Qle; lia.
Qed.

Lemma clipq_bounds (lo hi x : Q) :
  lo <= hi -> lo <= clipq lo hi x /\ clipq lo hi x <= hi.
Proof.
  intros H. unfold clipq. split.
  - apply Q.min_glb; [apply Q.le_max_r | exact H].
  - apply Q.le_min_r.
Qed.

(** X12.  Each of the five test patterns has the shape and the element type
    of the model's input; the elements of "random_normal" lie in [[0, 1]],
    and those of "max_values" are 255 for an 8-bit unsigned input and 1 for
    every other element type. *)
Theorem patterns_fit_the_input (self : ModelTester) (w : World) :
  exists pats w0 rn mv,
    test_patterns self w = (Ok pats, w0) /\
    Forall (fun p => shape (snd p) = td_shape (input_details_0 self) /\
                     dtype (snd p) = td_dtype (input_details_0 self)) pats /\
    dict_get pats "random_normal" = Some rn /\
    (forall i, 0 <= item rn i /\ item rn i <= 1) /\
    dict_get pats "max_values" = Some mv /\
    (forall i, item mv i =
               match td_dtype (input_details_0 self) with
               | UInt8 => 255
               | _ => 1
               end).
Proof.
  unfold test_patterns, np_random_rand, np_random_randn, np_random_randint,
    bind, lift, ret.
  destruct (random_sample w) as [u w1].
  destruct (standard_normal w1) as [n w2].
  assert (Hclip : forall dt i, 0 <= cast dt (clipq 0 1 (n i)) /\
                               cast dt (clipq 0 1 (n i)) <= 1).
  { intros dt i. apply cast_unit_interval; apply clipq_bounds; lra. }
  destruct (td_dtype (input_details_0 self)) eqn:Hdt; cbn [Dtype_eqb].
  - do 4 eexists. split; [reflexivity|]. cbn.
    split; [repeat constructor|]. split; [reflexivity|].
    split; [apply (Hclip Float32)|]. split; reflexivity.
  - do 4 eexists. split; [reflexivity|]. cbn.
    split; [repeat constructor|]. split; [reflexivity|].
    split; [apply (Hclip Float64)|]. split; reflexivity.
  - destruct (random_integers 0 256 w2) as [r w3].
    do 4 eexists. split; [reflexivity|]. cbn.
    split; [repeat constructor|]. split; [reflexivity|].
    split; [apply (Hclip UInt8)|]. split; reflexivity.
Qed.

End Entries.

Lemma prober_returns_five_entries_witness :
  exists d,
    fst (test_input_variations (host := Demo.host) Demo.tester Demo.start)
      = Ok (PDict d) /\
    dict_keys d = ["zeros"; "ones"; "random_uniform"; "random_normal"; "max_values"].
Proof.
  edestruct (prober_returns_five_entries (host := Demo.host) Demo.tester Demo.start)
    as (d & w' & Hrun & Hkeys & _).
  - discriminate.
  - exists d. rewrite Hrun. cbn [fst]. auto.
Defined.

(** ** Sample data generators *)

Section Samples.

Context {World : Type} {host : Host World}.

(** X13.  The audio-style generator never raises.  It returns a tensor
    exactly when the rank of the requested shape is 2, 3 or 4; the tensor
    then has the requested shape and 32-bit float elements, and one normal
    draw is the only effect on the world. *)
Theorem audio_data_returns_float_tensor (shape0 : list nat) (w : World) :
  exists res w',
    create_sample_audio_data shape0 w = (Ok res, w') /\
    match res with
    | Some r =>
        (length shape0 = 2 \/ length shape0 = 3 \/ length shape0 = 4)%nat /\
        shape r = shape0 /\ dtype r = Float32 /\
        w' = snd (standard_normal w)
    | None =>
        length shape0 <> 2%nat /\ length shape0 <> 3%nat /\ length shape0 <> 4%nat
    end.
Proof.
  unfold create_sample_audio_data, np_random_randn, bind, lift, ret, effect.
  destruct (length shape0 =? 2)%nat eqn:E2.
  { apply Nat.eqb_eq in E2. destruct (standard_normal w) as [f w1].
    do 2 eexists. split; [reflexivity|]. cbn. auto. }
  destruct (length shape0 =? 3)%nat eqn:E3.
  { apply Nat.eqb_eq in E3. destruct (standard_normal w) as [f w1].
    do 2 eexists. split; [reflexivity|]. cbn. auto. }
  destruct (length shape0 =? 4)%nat eqn:E4.
  { apply Nat.eqb_eq in E4. destruct (standard_normal w) as [f w1].
    do 2 eexists. split; [reflexivity|]. cbn. auto 6. }
  apply Nat.eqb_neq in E2, E3, E4. do 2 eexists. split; [reflexivity|].
  cbn. auto.
Qed.

(** X14.  The image-style generator never raises.  It returns a tensor
    exactly when the requested shape has rank 4; the tensor has the
    requested shape, with 32-bit float elements when [normalize] is set and
    8-bit unsigned elements otherwise. *)
Theorem image_data_returns_tensor (shape0 : list nat) (normalize : bool)
  (w : World) :
  exists res w',
    create_sample_image_data shape0 normalize w = (Ok res, w') /\
    match res with
    | Some r =>
        length shape0 = 4%nat /\ shape r = shape0 /\
        dtype r = (if normalize then Float32 else UInt8)
    | None =>
        length shape0 <> 4%nat /\
        w' = print ("Unexpected image shape: " ++ repr_shape shape0)%string w
    end.
Proof.
  unfold create_sample_image_data, np_random_rand, np_random_randint,
    bind, lift, ret, effect.
  destruct (length shape0 =? 4)%nat eqn:E4.
  - apply Nat.eqb_eq in E4. destruct normalize.
    + destruct (random_sample w) as [f w1]. do 2 eexists.
      split; [reflexivity|]. cbn. auto.
    + destruct (random_integers 0 255 w) as [f w1]. do 2 eexists.
      split; [reflexivity|]. cbn. auto.
  - apply Nat.eqb_neq in E4. do 2 eexists. split; [reflexivity|]. cbn. auto.
Qed.

End Samples.

(** ** More on the audio preprocessor *)

Section AudioMore.

Context {World : Type} {host : Host World}.

(** X15.  For a rank-2 target shape with [n] features, once the waveform is
    decoded and librosa returns [n] cepstral coefficients over [t >= 1]
    frames, the preprocessor returns a 32-bit float tensor of shape
    [[1; n]] whose feature [i] is the mean of coefficient [i] over the
    frames. *)
Theorem audio_features_are_time_averages (audio_path : string) (b n : nat)
  (sample_rate : Z) (w w' : World) (audio : list Q) (sr : Z) (t : nat) :
  librosa_load audio_path sample_rate w = (Ok (audio, sr), w') ->
  shape (librosa_mfcc audio sr n) = [n; t] ->
  (0 < t)%nat ->
  exists out,
    preprocess_audio_for_model audio_path [b; n] sample_rate w = (Ok out, w') /\
    shape out = [1%nat; n] /\
    dtype out = Float32 /\
    forall i, (i < n)%nat ->
      item out [0%nat; i] =
        sum_q (map (fun j => item (librosa_mfcc audio sr n) [i; j]) (seq 0 t))
        / Qnat t.
Proof.
  intros Hload Hshape Ht.
  unfold preprocess_audio_for_model, bind. rewrite Hload.
  cbn [length Nat.eqb nth].
  eexists. split; [reflexivity|].
  unfold mean_axis1. rewrite Hshape. cbn [astype expand_dims0 shape dtype item tl cast].
  split; [reflexivity|]. split; [reflexivity|].
  intros i Hi. unfold mean_q. now rewrite length_map, length_seq.
Qed.

(** X16.  Errors of the audio preprocessor.  A failure to decode the file
    is raised as it is, whatever the target shape; when decoding succeeds
    and the rank of the target shape is neither 2 nor 3, a [ValueError]
    naming the shape is raised. *)
Theorem audio_preprocessing_errors (audio_path : string)
  (target_shape : list nat) (sample_rate : Z) (w w' : World) :
  (forall e, librosa_load audio_path sample_rate w = (Raise e, w') ->
     preprocess_audio_for_model audio_path target_shape sample_rate w
       = (Raise e, w')) /\
  (forall loaded, librosa_load audio_path sample_rate w = (Ok loaded, w') ->
     length target_shape <> 2%nat -> length target_shape <> 3%nat ->
     preprocess_audio_for_model audio_path target_shape sample_rate w
       = (Raise (mk_exn ValueError
                   ("Unsupported audio target shape: "
                    ++ repr_shape target_shape)%string), w')).
Proof.
  split.
  - intros e Hload. unfold preprocess_audio_for_model, bind. now rewrite Hload.
  - intros [audio sr] Hload H2 H3.
    unfold preprocess_audio_for_model, bind, raise. rewrite Hload.
    apply Nat.eqb_neq in H2, H3. now rewrite H2, H3.
Qed.

End AudioMore.

Lemma audio_features_are_time_averages_witness :
  exists out,
    preprocess_audio_for_model (host := Demo.host) "bird.wav" [1; 2]%nat 22050
      Demo.start = (Ok out, Demo.start) /\
    shape out = [1; 2]%nat /\
    dtype out = Float32.
Proof.
  destruct (audio_features_are_time_averages (host := Demo.host) "bird.wav" 1 2
              22050 Demo.start Demo.start [0; 1 # 2; 0] 22050 5)
    as (out & Hrun & Hshape & Hdtype & _).
  - reflexivity.
  - reflexivity.
  - lia.
  - exists out. auto.
Defined.

(** On the demonstration host the two coefficients average to 3 and 13. *)
Example audio_features_example :
  match fst (preprocess_audio_for_model (host := Demo.host) "bird.wav"
               [1; 2]%nat 22050 Demo.start) with
  | Ok out => Qeq_bool (item out [0; 0]%nat) 3 && Qeq_bool (item out [0; 1]%nat) 13
  | Raise _ => false
  end = true.
Proof. vm_compute. reflexivity. Qed.

Lemma audio_preprocessing_errors_witness :
  preprocess_audio_for_model (host := Demo.host) "bird.wav" [1; 2; 3; 4]%nat
    22050 Demo.start
  = (Raise (mk_exn ValueError "Unsupported audio target shape: [1, 2, 3, 4]"),
     Demo.start).
Proof.
  apply (proj2 (audio_preprocessing_errors (host := Demo.host) "bird.wav"
                  [1; 2; 3; 4]%nat 22050 Demo.start Demo.start)
           ([0; 1 # 2; 0], 22050%Z)).
  - reflexivity.
  - simpl. lia.
  - simpl. lia.
Defined.

(** ** More on the report aggregator *)

Section ReportMore.

Context {World : Type} {host : Host World}.

(** X17.  Only an [ImportError] is absorbed by the report.  When the memory
    check raises any other exception (a failing inference while [psutil] is
    installed, say), [generate_test_report] raises it from the world where
    the check failed: the stability check does not run and nothing is
    saved. *)
Theorem memory_failure_aborts_the_report (self : ModelTester)
  (output_path : option string) (w wa wb wc wd we : World)
  (info speed vars : pyval) (ts : string) (e : exn) :
  get_model_info self (print "Generating comprehensive test report..." w)
    = (Ok info, wa) ->
  strftime "%Y-%m-%d %H:%M:%S" wa = (ts, wb) ->
  test_inference_speed self 100 10 (print "Running speed test..." wb)
    = (Ok speed, wc) ->
  test_input_variations self (print "Testing input variations..." wc)
    = (Ok vars, wd) ->
  test_memory_usage self (print "Testing memory usage..." wd) = (Raise e, we) ->
  is_ImportError e = false ->
  generate_test_report self output_path w = (Raise e, we).
Proof.
  intros Hinfo Hts Hspeed Hvars Hmem Hclass.
  unfold generate_test_report, bind, effect, lift, try_except.
  now rewrite Hinfo, Hts, Hspeed, Hvars, Hmem, Hclass.
Qed.

(** X18.  A report that cannot be written is lost to the caller: when all
    checks return but [json.dump] to a non-empty path raises,
    [generate_test_report] raises that exception instead of returning the
    report. *)
Theorem save_failure_loses_the_report (self : ModelTester) (path : string)
  (w wa wb wc wd we wf wg : World) (info speed vars mem stab : pyval)
  (ts : string) (e : exn) :
  path <> "" ->
  get_model_info self (print "Generating comprehensive test report..." w)
    = (Ok info, wa) ->
  strftime "%Y-%m-%d %H:%M:%S" wa = (ts, wb) ->
  test_inference_speed self 100 10 (print "Running speed test..." wb)
    = (Ok speed, wc) ->
  test_input_variations self (print "Testing input variations..." wc)
    = (Ok vars, wd) ->
  try_except (test_memory_usage self) is_ImportError
    (fun _ => ret memory_unavailable) (print "Testing memory usage..." wd)
    = (Ok mem, we) ->
  test_numerical_stability self 10 (print "Testing numerical stability..." we)
    = (Ok stab, wf) ->
  json_dump path (report_document info ts speed vars mem stab) wf
    = (Raise e, wg) ->
  generate_test_report self (Some path) w = (Raise e, wg).
Proof.
  intros Hpath Hinfo Hts Hspeed Hvars Hmem Hstab Hdump.
  unfold generate_test_report, bind, effect, lift.
  rewrite Hinfo, Hts, Hspeed, Hvars, Hmem, Hstab.
  cbn [dict_set String.eqb Ascii.eqb Bool.eqb]. unfold save_report, bind.
  apply String.eqb_neq in Hpath. rewrite Hpath.
  unfold report_document in Hdump. now rewrite Hdump.
Qed.

End ReportMore.

Lemma memory_failure_aborts_the_report_witness :
  exists w',
    generate_test_report (host := Demo.worn_host) Demo.tester None Demo.start
    = (Raise (mk_exn RuntimeError "Failed to invoke the interpreter"), w').
Proof.
  eexists.
  eapply (memory_failure_aborts_the_report (host := Demo.worn_host) Demo.tester
            None Demo.start).
  - vm_compute. reflexivity.
  - vm_compute. reflexivity.
  - vm_compute. reflexivity.
  - vm_compute. reflexivity.
  - vm_compute. reflexivity.
  - reflexivity.
Defined.

Lemma save_failure_loses_the_report_witness :
  exists w',
    generate_test_report (host := Demo.readonly_host) Demo.tester
      (Some "report.json") Demo.start
    = (Raise (mk_exn OSError "Permission denied"), w').
Proof.
  eexists.
  eapply (save_failure_loses_the_report (host := Demo.readonly_host) Demo.tester
            "report.json" Demo.start).
  - discriminate.
  - vm_compute. reflexivity.
  - vm_compute. reflexivity.
  - vm_compute. reflexivity.
  - vm_compute. reflexivity.
  - vm_compute. reflexivity.
  - vm_compute. reflexivity.
  - vm_compute. reflexivity.
Defined.

(** ** Image preprocessor *)

Section Image.

Context {World : Type} {vision : Vision World}.

(** X19.  For a decoded 8-bit image with three or four channels and a
    target shape [[b; H; W; ...]], when [cv2.resize] returns an 8-bit image
    of [H] rows, [W] columns and three channels, the preprocessor returns a
    32-bit float tensor of shape [[1; H; W; 3]] whose elements are the
    resized samples divided by 255, all within [[0, 1]]. *)
Theorem image_is_scaled_to_unit_range (image_path : string) (b H W : nat)
  (more : list nat) (w w' : World) (image rgb resized : ndarray) :
  cv2_imread image_path w = (Some image, w') ->
  cvtColor_BGR2RGB image = Ok rgb ->
  cv2_resize rgb W H = Ok resized ->
  shape resized = [H; W; 3%nat] ->
  (forall i, 0 <= item resized i /\ item resized i <= 255) ->
  exists out,
    preprocess_image_for_model image_path (b :: H :: W :: more) w = (Ok out, w') /\
    shape out = [1%nat; H; W; 3%nat] /\
    dtype out = Float32 /\
    (forall y x c, item out [0%nat; y; x; c] = item resized [y; x; c] / 255) /\
    (forall i, 0 <= item out i /\ item out i <= 1).
Proof.
  intros Hread Hrgb Hresize Hshape Hrange.
  unfold preprocess_image_for_model, bind, lift, of_result, ret.
  rewrite Hread, Hrgb. cbn [getitem nth_error]. rewrite Hresize.
  eexists. split; [reflexivity|].
  cbn [expand_dims0 divide_scalar astype shape dtype item tl cast].
  rewrite Hshape. split; [reflexivity|]. split; [reflexivity|].
  split; [reflexivity|].
  intros i. destruct (Hrange (tl i)) as [Hlo Hhi]. split.
  - apply Qle_shift_div_l; lra.
  - apply Qle_shift_div_r; lra.
Qed.

(** X20.  Errors of the image preprocessor.  A file that cannot be decoded
    gives a [ValueError] naming the path, whatever the target shape; for a
    decoded colour image, a target shape of rank below three gives an
    [IndexError] before any resizing. *)
Theorem image_preprocessing_errors (image_path : string)
  (target_shape : list nat) (w w' : World) :
  (cv2_imread image_path w = (None, w') ->
   preprocess_image_for_model image_path target_shape w
     = (Raise (mk_exn ValueError ("Could not load image: " ++ image_path)%string),
        w')) /\
  (forall image rgb,
     cv2_imread image_path w = (Some image, w') ->
     cvtColor_BGR2RGB image = Ok rgb ->
     (length target_shape < 3)%nat ->
     exists e,
       preprocess_image_for_model image_path target_shape w = (Raise e, w') /\
       exn_kind e = IndexError).
Proof.
  split.
  - intros Hread. unfold preprocess_image_for_model, bind, lift, raise.
    now rewrite Hread.
  - intros image rgb Hread Hrgb Hlen.
    unfold preprocess_image_for_model, bind, lift, of_result.
    rewrite Hread, Hrgb.
    destruct target_shape as [|a [|h [|wd rest]]]; simpl in Hlen; try lia;
      cbn [getitem nth_error]; eexists; split; reflexivity.
Qed.

(** The colour conversion swaps the first and the third channel and keeps
    the second. *)
Lemma cvtColor_swaps_channels (image rgb : ndarray) (h wd c : nat) :
  shape image = [h; wd; c] ->
  cvtColor_BGR2RGB image = Ok rgb ->
  shape rgb = [h; wd; 3%nat] /\
  forall y x,
    item rgb [y; x; 0%nat] = item image [y; x; 2%nat] /\
    item rgb [y; x; 1%nat] = item image [y; x; 1%nat] /\
    item rgb [y; x; 2%nat] = item image [y; x; 0%nat].
Proof.
  intros Hs H. unfold cvtColor_BGR2RGB in H. rewrite Hs in H.
  destruct ((c =? 3) || (c =? 4))%nat; [|discriminate].
  inversion H; subst. cbn. auto.
Qed.

End Image.

Lemma image_is_scaled_to_unit_range_witness :
  exists out,
    fst (preprocess_image_for_model (vision := Demo.vision) "plant.jpg"
           [1; 2; 2; 3]%nat Demo.start) = Ok out /\
    shape out = [1; 2; 2; 3]%nat /\
    dtype out = Float32 /\
    (forall i, 0 <= item out i /\ item out i <= 1).
Proof.
  edestruct (image_is_scaled_to_unit_range (vision := Demo.vision) "plant.jpg"
               1 2 2 [3%nat] Demo.start)
    as (out & Hrun & Hshape & Hdtype & _ & Hrange).
  - reflexivity.
  - reflexivity.
  - reflexivity.
  - reflexivity.
  - intros i. cbn -[Nat.modulo Nat.mul Nat.sub Nat.add Z.of_nat].
    destruct i as [|y [|x [|k [|? ?]]]]; try (split; discriminate).
    unfold Qnat. split.
    + change 0 with (inject_Z 0). rewrite <- Zle_Qle. lia.
    + change 255 with (inject_Z 255). rewrite <- Zle_Qle.
      assert (x mod 2 < 2)%nat by (apply Nat.mod_upper_bound; lia). lia.
  - exists out. rewrite Hrun. cbn [fst]. auto.
Defined.

Lemma image_preprocessing_errors_witness :
  preprocess_image_for_model (vision := Demo.vision) "missing.jpg"
    [1; 2; 2; 3]%nat Demo.start
  = (Raise (mk_exn ValueError "Could not load image: missing.jpg"), Demo.start).
Proof.
  apply (proj1 (image_preprocessing_errors (vision := Demo.vision) "missing.jpg"
                  [1; 2; 2; 3]%nat Demo.start Demo.start)).
  reflexivity.
Defined.

(** The preprocessed picture on the demonstration host: the BGR samples
    (0, 51, 102) and (100, 151, 202) come out in RGB order, scaled by 1/255
    (fractions in lowest terms). *)
Example image_example :
  match fst (preprocess_image_for_model (vision := Demo.vision) "plant.jpg"
               [1; 1; 2; 3]%nat Demo.start) with
  | Ok out => map Qred (ravel out)
  | Raise _ => []
  end = [2 # 5; 1 # 5; 0; 202 # 255; 151 # 255; 20 # 51].
Proof. vm_compute. reflexivity. Qed.

(** ** Structural validation *)

Example str_int_array_example :
  str_int_array [1; 224; 224; 3]%nat = "[  1 224 224   3]".
Proof. reflexivity. Qed.

Section Validation.

Context {World : Type} {host : Host World} {loader : Loader World}.

(** X21.  [validate_tflite_model] never raises: every exception is turned
    into the result [None].  When opening the model raises, the only thing
    done after it is printing one line with the path and the message. *)
Theorem validation_never_raises (path : string) (w : World) :
  (exists res w', validate_tflite_model path w = (Ok res, w')) /\
  (forall e w1,
     load_interpreter path w = (Raise e, w1) ->
     validate_tflite_model path w =
       (Ok None,
        print ("Error validating model " ++ path ++ ": " ++ exn_msg e)%string
          w1)).
Proof.
  split.
  - unfold validate_tflite_model, try_except.
    match goal with
    | |- exists res w', match ?c w with _ => _ end = _ =>
        destruct (c w) as [[res|e] w1]
    end.
    + eauto.
    + unfold bind, effect, ret. eauto.
  - intros e w1 Hload.
    unfold validate_tflite_model, try_except, bind, effect, ret.
    now rewrite Hload.
Qed.

(** X22.  When the model opens with at least one input and one output and
    its size can be read, validation returns a description that agrees with
    [ModelTester.get_model_info] on the same model: the latter is the former
    with [model_path] in front.  A warning is printed for each side whose
    tensor count is not one, and only then. *)
Theorem validation_agrees_with_model_info (path : string)
  (w w1 w2 : World) (in0 out0 : TensorDetail) (ins outs : list TensorDetail)
  (size : Z) :
  load_interpreter path w = (Ok (in0 :: ins, out0 :: outs), w1) ->
  stat_size path
    (print ("Output type: " ++ repr_dtype (td_dtype out0))%string
       (print ("Output shape: " ++ str_int_array (td_shape out0))%string
          (print ("Input type: " ++ repr_dtype (td_dtype in0))%string
             (print ("Input shape: " ++ str_int_array (td_shape in0))%string
                (print ("Model: " ++ path)%string w1)))))
    = (Ok size, w2) ->
  exists info,
    validate_tflite_model path w =
      (Ok (Some (PDict info)),
       let wi :=
         if (length ins =? 0)%nat then w2
         else print ("Warning: Model has " ++ repr_nat (S (length ins))
                     ++ " inputs, expected 1")%string w2 in
       if (length outs =? 0)%nat then wi
       else print ("Warning: Model has " ++ repr_nat (S (length outs))
                   ++ " outputs, expected 1")%string wi) /\
    forall w3 w4,
      stat_size path w3 = (Ok size, w4) ->
      get_model_info
        (mk_tester path in0 out0 (S (length ins)) (S (length outs))) w3
      = (Ok (PDict (("model_path", PStr path) :: info)), w4).
Proof.
  intros Hload Hsize.
  unfold validate_tflite_model, try_except, bind, effect, of_result, ret.
  rewrite Hload. cbn [getitem nth_error]. rewrite Hsize.
  cbn [length Nat.eqb].
  eexists. split.
  - destruct (length ins =? 0)%nat, (length outs =? 0)%nat; reflexivity.
  - intros w3 w4 Hstat. unfold get_model_info, bind, ret.
    cbn [model_path input_details_0 output_details_0 num_inputs
           num_outputs].
    rewrite Hstat. reflexivity.
Qed.

End Validation.

Lemma validation_never_raises_witness :
  validate_tflite_model (host := Demo.host) (loader := Demo.loader)
    "missing.tflite" Demo.start
  = (Ok None,
     Demo.mk_world 0 0
       ["Error validating model missing.tflite: Could not open 'missing.tflite'."]).
Proof.
  apply (proj2 (validation_never_raises (host := Demo.host)
                  (loader := Demo.loader) "missing.tflite" Demo.start)
           (mk_exn ValueError "Could not open 'missing.tflite'.") Demo.start).
  reflexivity.
Defined.

Lemma validation_agrees_with_model_info_witness :
  exists info,
    fst (validate_tflite_model (host := Demo.host) (loader := Demo.loader)
           "pair.tflite" Demo.start) = Ok (Some (PDict info)) /\
    dict_get info "num_inputs" = Some (PInt 2) /\
    Demo.console
      (snd (validate_tflite_model (host := Demo.host) (loader := Demo.loader)
              "pair.tflite" Demo.start))
    = [ "Model: pair.tflite";
        "Input shape: [  1 224 224   3]";
        "Input type: <class 'numpy.uint8'>";
        "Output shape: [ 1 10]";
        "Output type: <class 'numpy.uint8'>";
        "Warning: Model has 2 inputs, expected 1" ].
Proof.
  edestruct (validation_agrees_with_model_info (host := Demo.host)
               (loader := Demo.loader) "pair.tflite" Demo.start)
    as (info & Hrun & Hinfo).
  - reflexivity.
  - reflexivity.
  - exists info. rewrite Hrun. cbn [fst snd].
    split; [reflexivity|].
    specialize (Hinfo Demo.start Demo.start eq_refl).
    vm_compute in Hinfo. injection Hinfo as <-.
    split; reflexivity.
Defined.

(** ** Construction of a tester *)

Section Construction.

Context {World : Type} {host : Host World} {loader : Loader World}.

(** X23.  A [ModelTester] exists only for a model that opens and has at
    least one input and one output tensor: the constructor returns exactly
    in that case, and the tester then holds the path, the first input and
    output details and the two tensor counts.  A model that opens without
    inputs or without outputs makes the constructor raise [IndexError]. *)
Theorem tester_needs_an_input_and_an_output (path : string) (w w1 : World)
  (inputs outputs : list TensorDetail) :
  load_interpreter path w = (Ok (inputs, outputs), w1) ->
  (forall self w',
     ModelTester_init path w = (Ok self, w') ->
     exists in0 ins out0 outs,
       inputs = in0 :: ins /\ outputs = out0 :: outs /\
       self = mk_tester path in0 out0 (length inputs) (length outputs)) /\
  (inputs = [] \/ outputs = [] ->
   exists e w', ModelTester_init path w = (Raise e, w') /\ exn_kind e = IndexError) /\
  (forall in0 ins out0 outs,
     inputs = in0 :: ins -> outputs = out0 :: outs ->
     exists w',
       ModelTester_init path w =
         (Ok (mk_tester path in0 out0 (length inputs) (length outputs)), w')).
Proof.
  intros Hload. unfold ModelTester_init, bind, effect, of_result, ret.
  rewrite Hload. split; [|split].
  - intros self w' H.
    destruct inputs as [|in0 ins]; [discriminate|].
    destruct outputs as [|out0 outs]; [discriminate|].
    cbn [getitem nth_error] in H. inversion H. eauto 8.
  - intros [->| ->].
    + cbn [getitem nth_error]. eauto.
    + destruct inputs as [|in0 ins]; cbn [getitem nth_error]; eauto.
  - intros in0 ins out0 outs -> ->. cbn [getitem nth_error]. eauto.
Qed.

End Construction.

Lemma tester_needs_an_input_and_an_output_witness :
  fst (ModelTester_init (host := Demo.host) (loader := Demo.loader)
         "flora.tflite" Demo.start) = Ok Demo.tester.
Proof.
  destruct (proj2 (proj2 (tester_needs_an_input_and_an_output
                            (host := Demo.host) (loader := Demo.loader)
                            "flora.tflite" Demo.start Demo.start _ _ eq_refl))
              _ _ _ _ eq_refl eq_refl) as (w' & Hrun).
  rewrite Hrun. reflexivity.
Defined.
